(** * Single-stage membrane CO2 capture: the stage solver and the 80/80 optimizer

    A shallow embedding of [membrane_separation.py] (class [MembraneSeparation]),
    of the part of [opex_calculator.py] the optimizer calls, and of
    [auto_optimizer.py] (class [TargetOptimizer]), with the properties the
    specification states about them.

    Numbers.  Python and NumPy floats are modelled by [num]: exact rationals
    extended with the IEEE special values [+inf], [-inf] and [nan].  Rounding,
    overflow and the sign of zero are outside the model; what is kept is the
    control flow that depends on the special values: a comparison with [nan]
    is false, NumPy division by zero yields a special value and goes on, and
    Python division by zero raises [ZeroDivisionError].

    Collaborators.  [scipy.optimize.fsolve], [differential_evolution] and
    [minimize], and NumPy's power function, are parameters of the sections
    that use them. *)

From Stdlib Require Import QArith Qabs Qminmax Lqa.
From stdpp Require Import base option strings pretty gmap list.

Open Scope Q_scope.

(** ** Numbers *)

Inductive num : Type :=
  | Fin (q : Q)
  | PInf
  | NInf
  | NaN.

Coercion Fin : Q >-> num.

Declare Scope num_scope.
Delimit Scope num_scope with num.
Bind Scope num_scope with num.

Definition Qltb (a b : Q) : bool := negb (Qle_bool b a).

(** Sign of a rational: [Gt] positive, [Eq] zero, [Lt] negative. *)
Definition Qsign (a : Q) : comparison := a ?= 0.

Definition is_zero (a : num) : bool :=
  match a with
  | Fin q => Qeq_bool q 0
  | _ => false
  end.

Definition fneg (a : num) : num :=
  match a with
  | Fin q => Fin (- q)
  | PInf => NInf
  | NInf => PInf
  | NaN => NaN
  end.

Definition fadd (a b : num) : num :=
  match a, b with
  | NaN, _ | _, NaN => NaN
  | Fin p, Fin q => Fin (p + q)
  | PInf, NInf | NInf, PInf => NaN
  | PInf, _ | _, PInf => PInf
  | NInf, _ | _, NInf => NInf
  end.

Definition fsub (a b : num) : num := fadd a (fneg b).

(** An infinity scaled by a finite factor. *)
Definition scale_inf (q : Q) (pos : bool) : num :=
  match Qsign q with
  | Gt => if pos then PInf else NInf
  | Lt => if pos then NInf else PInf
  | Eq => NaN
  end.

Definition fmul (a b : num) : num :=
  match a, b with
  | NaN, _ | _, NaN => NaN
  | Fin p, Fin q => Fin (p * q)
  | Fin p, PInf | PInf, Fin p => scale_inf p true
  | Fin p, NInf | NInf, Fin p => scale_inf p false
  | PInf, PInf | NInf, NInf => PInf
  | PInf, NInf | NInf, PInf => NInf
  end.

(** NumPy's true division: a zero divisor gives a special value (with a
    warning that does not interrupt the program). *)
Definition fdiv (a b : num) : num :=
  match a, b with
  | NaN, _ | _, NaN => NaN
  | Fin p, Fin q =>
      if Qeq_bool q 0 then scale_inf p true else Fin (p / q)
  | Fin _, (PInf | NInf) => Fin 0
  | PInf, Fin q => if Qltb q 0 then NInf else PInf
  | NInf, Fin q => if Qltb q 0 then PInf else NInf
  | (PInf | NInf), (PInf | NInf) => NaN
  end.

Definition fabs (a : num) : num :=
  match a with
  | Fin q => Fin (Qabs q)
  | PInf | NInf => PInf
  | NaN => NaN
  end.

(** [a < b] and [a <= b] as Python evaluates them: false on [nan]. *)
Definition flt (a b : num) : bool :=
  match a, b with
  | NaN, _ | _, NaN => false
  | Fin p, Fin q => Qltb p q
  | NInf, NInf | PInf, _ | _, NInf => false
  | NInf, _ | _, PInf => true
  end.

Definition fle (a b : num) : bool :=
  match a, b with
  | NaN, _ | _, NaN => false
  | Fin p, Fin q => Qle_bool p q
  | NInf, _ | _, PInf => true
  | PInf, _ | _, NInf => false
  end.

Infix "+" := fadd : num_scope.
Infix "-" := fsub : num_scope.
Infix "*" := fmul : num_scope.
Infix "/" := fdiv : num_scope.
Infix "<?" := flt : num_scope.
Infix "<=?" := fle : num_scope.
Notation "a >? b" := (flt b a) (at level 70, only parsing) : num_scope.
Notation "a >=? b" := (fle b a) (at level 70, only parsing) : num_scope.

(** [x ** 2]. *)
Definition sq (a : num) : num := (a * a)%num.

(** Python's [max(a, b)] and [min(a, b)]: the first argument is kept unless
    the second compares strictly above (below) it. *)
Definition py_max (a b : num) : num := if (b >? a)%num then b else a.
Definition py_min (a b : num) : num := if (b <? a)%num then b else a.

(** Equality of numbers up to the representation of the rational. *)
Definition num_eq (a b : num) : Prop :=
  match a, b with
  | Fin p, Fin q => p == q
  | PInf, PInf | NInf, NInf | NaN, NaN => True
  | _, _ => False
  end.

Infix "=n=" := num_eq (at level 70, no associativity).

(** ** Exceptions, console output and the monad of the embedding *)

Inductive exn : Type :=
  | ZeroDivisionError
  | TypeError
  | KeyError (key : string)
  | IndexError
  | OtherError (msg : string).

Definition exn_str (e : exn) : string :=
  match e with
  | ZeroDivisionError => "float division by zero"
  | TypeError => "'NoneType' object is not subscriptable"
  | KeyError k => k
  | IndexError => "index out of bounds"
  | OtherError msg => msg
  end.

(** What a run leaves behind besides its value: lines printed, membrane
    models constructed, optimizer runs started. *)
Inductive event : Type :=
  | Print (line : string)
  | Construct
  | Optimize (method : string).

(** A computation prints and then either raises or returns. *)
Definition M (A : Type) : Type := list event * (exn + A).

Definition ret {A} (a : A) : M A := ([], inr a).
Definition raise {A} (e : exn) : M A := ([], inl e).
Definition tell (ev : event) : M unit := ([ev], inr tt).

Definition bind {A B} (m : M A) (k : A -> M B) : M B :=
  match m with
  | (l, inl e) => (l, inl e)
  | (l, inr a) => let '(l', r) := k a in (l ++ l', r)
  end.

Notation "x <- m ;; k" := (bind m (fun x => k))
  (at level 100, m at next level, right associativity).
Notation "m ;;; k" := (bind m (fun _ => k))
  (at level 100, right associativity).

Definition lift {A} (r : exn + A) : M A := ([], r).

(** [a / b] on Python floats. *)
Definition py_div (a b : num) : M num :=
  if is_zero b then raise ZeroDivisionError else ret (a / b)%num.

(** [d[key]] and [d.get(key, default)] on a dict. *)
Definition getitem (d : gmap string num) (key : string) : M num :=
  match d !! key with
  | Some v => ret v
  | None => raise (KeyError key)
  end.

Definition get (d : gmap string num) (key : string) (dflt : num) : num :=
  default dflt (d !! key).

(** [a[i]] on an array. *)
Definition index (a : list num) (i : nat) : M num :=
  match a !! i with
  | Some v => ret v
  | None => raise IndexError
  end.

(** ** membrane_separation.py *)

Open Scope num_scope.

Definition GPU_TO_SI : num := 3.348e-10.
Definition R_GAS : num := 8.314.

(** The attributes [__init__] sets. *)
Record MembraneSeparation : Type := {
  self_z : num;
  self_P_f : num;
  self_P_p : num;
  self_T : num;
  self_P_CO2 : num;
  self_alpha : num;
  self_P_N2 : num
}.

(** How the CO2 permeance and the selectivity reach the constructor: both
    as Python numbers (the optimizer takes them from a parameter dict), or
    at least one of them as a NumPy scalar (the sweeps of the simulator
    iterate over [np.linspace]). *)
Inductive operands : Type := PythonNumbers | NumPyScalar.

(** [MembraneSeparation.__init__].  Its one division, [P_CO2 / alpha],
    raises on a zero divisor between Python numbers and yields [inf] or
    [nan] as soon as an operand is a NumPy scalar. *)
Definition MembraneSeparation_init (kind : operands)
    (feed_composition feed_pressure permeate_pressure temperature
     co2_permeance_gpu selectivity : num) : M MembraneSeparation :=
  tell Construct ;;;
  let z := feed_composition in
  let P_f := feed_pressure * 1e5 in
  let P_p := permeate_pressure * 1e5 in
  let T := temperature in
  let P_CO2 := co2_permeance_gpu * GPU_TO_SI in
  let alpha := selectivity in
  P_N2 <- match kind with
          | PythonNumbers => py_div P_CO2 alpha
          | NumPyScalar => ret (P_CO2 / alpha)
          end ;;
  ret {| self_z := z; self_P_f := P_f; self_P_p := P_p; self_T := T;
         self_P_CO2 := P_CO2; self_alpha := alpha; self_P_N2 := P_N2 |}.

(** The dict [solve_single_stage] returns. *)
Record StageResult : Type := {
  stage_cut : num;
  permeate_co2 : num;
  retentate_co2 : num;
  co2_recovery : num;
  permeate_flow : num;
  retentate_flow : num;
  membrane_area : num;
  co2_permeated : num
}.

Definition sentinel : num * num := (Fin 1e10, Fin 1e10).

(** The residual function [equations] nested in [solve_single_stage], on
    NumPy scalars.  Beside the residuals it returns the divisors of the
    divisions it evaluated, in order. *)
Definition equations_divisors (self : MembraneSeparation) (F : num)
    (vars : num * num) : list num * (num * num) :=
  let '(theta, y) := vars in
  let P := theta * F in
  let R := F - P in
  if R <=? 0 then ([], sentinel) else
  let x := (F * self_z self - P * y) / R in
  if (x <? 0) || (x >? 1) || (y <? 0) || (y >? 1) then ([R], sentinel) else
  let p_CO2_f := x * self_P_f self in
  let p_CO2_p := y * self_P_p self in
  let p_N2_f := (1 - x) * self_P_f self in
  let p_N2_p := (1 - y) * self_P_p self in
  let J_CO2 := self_P_CO2 self * (p_CO2_f - p_CO2_p) in
  let J_N2 := self_P_N2 self * (p_N2_f - p_N2_p) in
  if (fabs J_CO2 <? 1e-20) || (fabs J_N2 <? 1e-20) then ([R], sentinel) else
  let flux_ratio := J_CO2 / J_N2 in
  let comp_ratio := if y <? 1 then y / (1 - y) else 1e10 in
  let eq1 := flux_ratio - comp_ratio in
  let eq2 := (F * self_z self - R * x - P * y) / (F * self_z self + 1e-10) in
  ([R; J_N2] ++ (if y <? 1 then [1 - y] else []) ++ [F * self_z self + 1e-10],
   (eq1, eq2)).

Definition equations (self : MembraneSeparation) (F : num)
    (vars : num * num) : num * num :=
  snd (equations_divisors self F vars).

Definition theta_init : num := 0.3.
Definition y_init : num := 0.5.

(** The part of [solve_single_stage] under "Calculate results": the dict
    built from the iterate [(theta, y)], which is a pair of NumPy scalars,
    so every division is NumPy's. *)
Definition calculate_results (self : MembraneSeparation) (F theta y : num)
    : StageResult :=
  let P := theta * F in
  let R := F - P in
  let x := (F * self_z self - P * y) / R in
  let recovery := (P * y) / (F * self_z self) in
  let p_CO2_f := x * self_P_f self in
  let p_CO2_p := y * self_P_p self in
  let delta_p_CO2 := p_CO2_f - p_CO2_p in
  let n_CO2_perm := P * y * 1000 in
  let A := n_CO2_perm / (self_P_CO2 self * delta_p_CO2) in
  {| stage_cut := theta; permeate_co2 := y; retentate_co2 := x;
     co2_recovery := recovery; permeate_flow := P;
     retentate_flow := R; membrane_area := A;
     co2_permeated := n_CO2_perm |}.

Section StageSolver.

(** [scipy.optimize.fsolve(func, x0, full_output=True)]: it raises, or it
    returns the last iterate and [info['fvec']]. *)
Variable fsolve :
  (num * num -> num * num) -> num * num -> exn + ((num * num) * (num * num)).

(** The body of the [try] of [solve_single_stage]. *)
Definition solve_single_stage_try (self : MembraneSeparation)
    (feed_flow : num) : M StageResult :=
  let F := feed_flow in
  solution <- lift (fsolve (equations self F) (theta_init, y_init)) ;;
  let '((theta, y), (fvec0, fvec1)) := solution in
  (if sq fvec0 + sq fvec1 >? 1e-6
   then tell (Print "Warning: Solution may not have converged")
   else ret tt) ;;;
  ret (calculate_results self F theta y).

(** [MembraneSeparation.solve_single_stage]: the result dict, or [None]
    after printing the error. *)
Definition solve_single_stage (self : MembraneSeparation)
    (feed_flow : num) : list event * option StageResult :=
  match solve_single_stage_try self feed_flow with
  | (out, inr results) => (out, Some results)
  | (out, inl e) =>
      (out ++ [Print ("Error solving membrane equations: " +:+ exn_str e)],
       None)
  end.

End StageSolver.

(** ** opex_calculator.py: what the optimizer calls *)

Record OPEXCalculator : Type := {
  electricity_cost : num;
  membrane_cost_per_m2 : num;
  membrane_lifetime : num;
  labor_cost_per_hour : num;
  maintenance_factor : num;
  operating_hours_per_year : num;
  plant_availability : num;
  water_cost : num;
  chemicals_cost : num;
  insurance_rate : num;
  admin_overhead : num
}.

Definition OPEXCalculator_init : OPEXCalculator := {|
  electricity_cost := 0.07;
  membrane_cost_per_m2 := 50;
  membrane_lifetime := 5;
  labor_cost_per_hour := 50;
  maintenance_factor := 0.03;
  operating_hours_per_year := 8000;
  plant_availability := 0.92;
  water_cost := 0.5;
  chemicals_cost := 5000;
  insurance_rate := 0.01;
  admin_overhead := 0.15
|}.

(** The two assignments [self.opex_calc.electricity_cost = ...] and
    [self.opex_calc.membrane_cost_per_m2 = ...]. *)
Definition set_costs (electricity membrane : num) (c : OPEXCalculator)
    : OPEXCalculator :=
  {| electricity_cost := electricity;
     membrane_cost_per_m2 := membrane;
     membrane_lifetime := membrane_lifetime c;
     labor_cost_per_hour := labor_cost_per_hour c;
     maintenance_factor := maintenance_factor c;
     operating_hours_per_year := operating_hours_per_year c;
     plant_availability := plant_availability c;
     water_cost := water_cost c;
     chemicals_cost := chemicals_cost c;
     insurance_rate := insurance_rate c;
     admin_overhead := admin_overhead c |}.

Section Economics.

(** [a ** b] on NumPy scalars. *)
Variable np_power : num -> num -> num.

(** [OPEXCalculator.calculate_compression_energy].  One of the two
    pressures is always a NumPy scalar, so [P2 / P1] is NumPy's division;
    the other divisors are non-zero constants. *)
Definition calculate_compression_energy
    (feed_flow_kmol_s P_initial P_final temperature efficiency stages : num)
    : num :=
  let R := Fin 8.314 in
  let gamma := Fin 1.4 in
  let P1 := P_initial * 1e5 in
  let P2 := P_final * 1e5 in
  let n_dot := feed_flow_kmol_s * 1000 in
  let pressure_ratio := np_power (P2 / P1) (1 / stages) in
  let W_stage :=
    (gamma / (gamma - 1)) * R * temperature *
    (np_power pressure_ratio ((gamma - 1) / gamma) - 1) in
  let W_total := stages * W_stage * n_dot / efficiency in
  W_total / 1000.

(** [OPEXCalculator.calculate_annual_opex], up to the entry
    ['Total OPEX']['Annual ($/year)'] of the breakdown, the only one the
    optimizer reads.  The percentages of the other entries divide NumPy
    scalars and cannot raise. *)
Definition calculate_annual_opex (self : OPEXCalculator)
    (membrane_area compression_power vacuum_power
     labor_hours_per_day water_usage_m3_per_day : num) : num :=
  let total_power := compression_power + vacuum_power in
  let annual_energy := total_power * operating_hours_per_year self in
  let energy_cost := annual_energy * electricity_cost self in
  let annual_membrane_replacement :=
    (membrane_area * membrane_cost_per_m2 self) / membrane_lifetime self in
  let annual_labor_hours := labor_hours_per_day * 365 in
  let direct_labor_cost := annual_labor_hours * labor_cost_per_hour self in
  let admin_labor_cost := direct_labor_cost * admin_overhead self in
  let total_labor_cost := direct_labor_cost + admin_labor_cost in
  let estimated_capex :=
    membrane_area * membrane_cost_per_m2 self + compression_power * 500 in
  let maintenance_cost := estimated_capex * maintenance_factor self in
  let annual_water_usage := water_usage_m3_per_day * 365 in
  let water_cost := annual_water_usage * water_cost self in
  let chemicals_cost := chemicals_cost self in
  let insurance_cost := estimated_capex * insurance_rate self in
  let subtotal :=
    energy_cost + annual_membrane_replacement + total_labor_cost +
    maintenance_cost + water_cost + chemicals_cost + insurance_cost in
  let miscellaneous := subtotal * 0.02 in
  let total_opex := subtotal + miscellaneous in
  total_opex.

End Economics.

(** ** auto_optimizer.py *)

Record TargetOptimizer : Type := {
  recovery_target : num;
  purity_target : num;
  opex_calc : OPEXCalculator
}.

Definition TargetOptimizer_init (recovery_target purity_target : num)
    : TargetOptimizer :=
  {| recovery_target := recovery_target; purity_target := purity_target;
     opex_calc := OPEXCalculator_init |}.

(** [scipy]'s [OptimizeResult]: the point found and the objective there. *)
Record OptimizeResult : Type := {
  res_x : num * num * num;
  res_fun : num
}.

(** The dict [find_optimal_conditions] returns; the last four keys are
    absent until a fallback strategy of [guaranteed_solution] adds them. *)
Record Solution : Type := {
  sol_feed_pressure : num;
  sol_permeate_pressure : num;
  sol_pressure_ratio : num;
  sol_co2_recovery : num;
  sol_co2_purity : num;
  sol_membrane_area : num;
  sol_stage_cut : num;
  sol_meets_target : bool;
  sol_optimization_penalty : num;
  sol_opex_annual : num;
  sol_total_power : num;
  sol_full_results : StageResult;
  sol_selectivity : option num;
  sol_co2_permeance_gpu : option num;
  sol_feed_composition : option num;
  sol_temperature : option num
}.

(** A call of a function that prints and cannot raise. *)
Definition call {A} (p : list event * A) : M A := (p.1, inr p.2).

(** [results[key]] where [results] is a dict or [None]. *)
Definition subscript (results : option StageResult)
    (key : StageResult -> num) : M num :=
  match results with
  | Some d => ret (key d)
  | None => raise TypeError
  end.

Definition initial_guess : list num := [Fin 3.0; Fin 0.2; Fin 1.0].
Definition bounds : list (num * num) :=
  [(Fin 1.0, Fin 15.0); (Fin 0.05, Fin 2.0); (Fin 0.1, Fin 10.0)].

(** The dict [fixed_params] that [find_optimal_conditions] builds from
    [base_params]. *)
Definition fixed_params_of (base_params : gmap string num)
    : gmap string num :=
  <["selectivity" := get base_params "selectivity" 50]>
  (<["co2_permeance_gpu" := get base_params "co2_permeance_gpu" 800]>
  (<["temperature" := get base_params "temperature" 298]>
  (<["feed_composition" := get base_params "feed_composition" 0.15]>
  (<["feed_flow" := get base_params "feed_flow" 1.0]> ∅)))).

Section TargetOptimizer.

Variable fsolve :
  (num * num -> num * num) -> num * num -> exn + ((num * num) * (num * num)).
Variable np_power : num -> num -> num.

(** [differential_evolution(func, bounds, ...)] with the fixed budget and
    seed of the source, and [minimize(func, x0, method='Nelder-Mead',
    bounds=...)]. *)
Variable differential_evolution :
  (list num -> num) -> list (num * num) -> OptimizeResult.
Variable minimize :
  (list num -> num) -> list num -> list (num * num) -> OptimizeResult.

(** The body of the [try] of [objective_function]. *)
Definition objective_function_try (self : TargetOptimizer)
    (params : list num) (fixed_params : gmap string num) : M num :=
  feed_pressure <- index params 0 ;;
  permeate_pressure <- index params 1 ;;
  area_factor <- index params 2 ;;
  if permeate_pressure >=? feed_pressure then ret (Fin 1e6) else
  if (feed_pressure <? 1) || (feed_pressure >? 20) then ret (Fin 1e6) else
  if (permeate_pressure <? 0.05) || (permeate_pressure >? 5)
  then ret (Fin 1e6) else
  if (area_factor <? 0.1) || (area_factor >? 10) then ret (Fin 1e6) else
  feed_composition <- getitem fixed_params "feed_composition" ;;
  temperature <- getitem fixed_params "temperature" ;;
  co2_permeance_gpu <- getitem fixed_params "co2_permeance_gpu" ;;
  selectivity <- getitem fixed_params "selectivity" ;;
  membrane <- MembraneSeparation_init PythonNumbers feed_composition
                feed_pressure permeate_pressure temperature
                co2_permeance_gpu selectivity ;;
  feed_flow <- getitem fixed_params "feed_flow" ;;
  results <- call (solve_single_stage fsolve membrane feed_flow) ;;
  recovery <- subscript results co2_recovery ;;
  purity <- subscript results permeate_co2 ;;
  let recovery_penalty :=
    sq (py_max 0 (recovery_target self - recovery)) * 100 in
  let purity_penalty :=
    sq (py_max 0 (purity_target self - purity)) * 100 in
  let cost_penalty :=
    (feed_pressure / 10) * 0.1 + (area_factor / 5) * 0.1 in
  let total_penalty := recovery_penalty + purity_penalty + cost_penalty in
  ret total_penalty.

(** [TargetOptimizer.objective_function]: any exception becomes the
    penalty [1e6]. *)
Definition objective_function (self : TargetOptimizer)
    (params : list num) (fixed_params : gmap string num)
    : list event * num :=
  match objective_function_try self params fixed_params with
  | (out, inr penalty) => (out, penalty)
  | (out, inl _) => (out, Fin 1e6)
  end.

(** [TargetOptimizer.find_optimal_conditions].  What the objective prints
    while the optimizer evaluates it stays inside the optimizer. *)
Definition find_optimal_conditions (self : TargetOptimizer)
    (base_params : gmap string num) (method : string) : M Solution :=
  let fixed_params := fixed_params_of base_params in
  let objective := fun x => (objective_function self x fixed_params).2 in
  result <-
    (if String.eqb method "differential_evolution"
     then tell (Optimize "differential_evolution") ;;;
          ret (differential_evolution objective bounds)
     else tell (Optimize "Nelder-Mead") ;;;
          ret (minimize objective initial_guess bounds)) ;;
  let optimal_params := res_x result in
  let feed_pressure := optimal_params.1.1 in
  let permeate_pressure := optimal_params.1.2 in
  feed_composition <- getitem fixed_params "feed_composition" ;;
  temperature <- getitem fixed_params "temperature" ;;
  co2_permeance_gpu <- getitem fixed_params "co2_permeance_gpu" ;;
  selectivity <- getitem fixed_params "selectivity" ;;
  membrane <- MembraneSeparation_init PythonNumbers feed_composition
                feed_pressure permeate_pressure temperature
                co2_permeance_gpu selectivity ;;
  feed_flow <- getitem fixed_params "feed_flow" ;;
  results <- call (solve_single_stage fsolve membrane feed_flow) ;;
  let calc :=
    set_costs (get base_params "electricity_cost" 0.07)
      (get base_params "membrane_cost_per_m2" 50) (opex_calc self) in
  feed_flow' <- getitem fixed_params "feed_flow" ;;
  temperature' <- getitem fixed_params "temperature" ;;
  let compression_power :=
    calculate_compression_energy np_power feed_flow' 1.0 feed_pressure
      temperature' 0.75 1 in
  vacuum_power <-
    (if permeate_pressure <? 1.0
     then flow <- subscript results permeate_flow ;;
          temperature'' <- getitem fixed_params "temperature" ;;
          ret (calculate_compression_energy np_power flow
                 permeate_pressure 1.0 temperature'' 0.75 1)
     else ret (Fin 0)) ;;
  area0 <- subscript results membrane_area ;;
  let opex_annual :=
    calculate_annual_opex calc area0 compression_power
      vacuum_power 2 1 in
  recovery <- subscript results co2_recovery ;;
  purity <- subscript results permeate_co2 ;;
  area <- subscript results membrane_area ;;
  cut <- subscript results stage_cut ;;
  full <- match results with
          | Some d => ret d
          | None => raise TypeError
          end ;;
  ret {| sol_feed_pressure := feed_pressure;
         sol_permeate_pressure := permeate_pressure;
         sol_pressure_ratio := feed_pressure / permeate_pressure;
         sol_co2_recovery := recovery;
         sol_co2_purity := purity;
         sol_membrane_area := area;
         sol_stage_cut := cut;
         sol_meets_target :=
           (recovery >=? recovery_target self) &&
           (purity >=? purity_target self);
         sol_optimization_penalty := res_fun result;
         sol_opex_annual := opex_annual;
         sol_total_power := compression_power + vacuum_power;
         sol_full_results := full;
         sol_selectivity := None;
         sol_co2_permeance_gpu := None;
         sol_feed_composition := None;
         sol_temperature := None |}.

End TargetOptimizer.

(** [solution[key] = value] for the keys [guaranteed_solution] assigns. *)
Definition set_meets_target (v : bool) (s : Solution) : Solution :=
  {| sol_feed_pressure := sol_feed_pressure s;
     sol_permeate_pressure := sol_permeate_pressure s;
     sol_pressure_ratio := sol_pressure_ratio s;
     sol_co2_recovery := sol_co2_recovery s;
     sol_co2_purity := sol_co2_purity s;
     sol_membrane_area := sol_membrane_area s;
     sol_stage_cut := sol_stage_cut s;
     sol_meets_target := v;
     sol_optimization_penalty := sol_optimization_penalty s;
     sol_opex_annual := sol_opex_annual s;
     sol_total_power := sol_total_power s;
     sol_full_results := sol_full_results s;
     sol_selectivity := sol_selectivity s;
     sol_co2_permeance_gpu := sol_co2_permeance_gpu s;
     sol_feed_composition := sol_feed_composition s;
     sol_temperature := sol_temperature s |}.

(** The four parameter keys at once; [None] leaves a key as it is. *)
Definition set_params (selectivity co2_permeance_gpu feed_composition
    temperature : option num) (s : Solution) : Solution :=
  {| sol_feed_pressure := sol_feed_pressure s;
     sol_permeate_pressure := sol_permeate_pressure s;
     sol_pressure_ratio := sol_pressure_ratio s;
     sol_co2_recovery := sol_co2_recovery s;
     sol_co2_purity := sol_co2_purity s;
     sol_membrane_area := sol_membrane_area s;
     sol_stage_cut := sol_stage_cut s;
     sol_meets_target := sol_meets_target s;
     sol_optimization_penalty := sol_optimization_penalty s;
     sol_opex_annual := sol_opex_annual s;
     sol_total_power := sol_total_power s;
     sol_full_results := sol_full_results s;
     sol_selectivity :=
       from_option Some (sol_selectivity s) selectivity;
     sol_co2_permeance_gpu :=
       from_option Some (sol_co2_permeance_gpu s) co2_permeance_gpu;
     sol_feed_composition :=
       from_option Some (sol_feed_composition s) feed_composition;
     sol_temperature :=
       from_option Some (sol_temperature s) temperature |}.

(** The parameter dicts of strategies 2 to 6 and 8 of
    [guaranteed_solution]: copies of [base_params] with keys reassigned, and
    the literal [working_params]. *)
Definition params2 (base_params : gmap string num) : gmap string num :=
  <["selectivity" := py_min 100 (get base_params "selectivity" 50 * 1.5)]>
  base_params.

Definition params3 (base_params : gmap string num) : gmap string num :=
  <["selectivity" := py_min 100 (get base_params "selectivity" 50 * 1.3)]>
  (<["feed_composition" :=
       py_min 0.50 (get base_params "feed_composition" 0.15 * 1.5)]>
   base_params).

Definition params4 (base_params : gmap string num) : gmap string num :=
  <["feed_composition" :=
      py_min 0.40 (get base_params "feed_composition" 0.15 * 1.3)]>
  (<["co2_permeance_gpu" := get base_params "co2_permeance_gpu" 800 * 0.7]>
  (<["selectivity" := Fin 150]> base_params)).

Definition params5 (base_params : gmap string num) : gmap string num :=
  <["feed_composition" :=
      py_min 0.50 (get base_params "feed_composition" 0.15 * 2.0)]>
  (<["selectivity" := Fin 120]>
  (<["temperature" := Fin 308]> base_params)).

Definition params6 (base_params : gmap string num) : gmap string num :=
  <["temperature" := Fin 298]>
  (<["feed_composition" := Fin 0.30]>
  (<["co2_permeance_gpu" := Fin 1200]>
  (<["selectivity" := Fin 200]> base_params))).

Definition working_params : gmap string num :=
  <["membrane_cost_per_m2" := Fin 50]>
  (<["electricity_cost" := Fin 0.07]>
  (<["selectivity" := Fin 250]>
  (<["co2_permeance_gpu" := Fin 1500]>
  (<["temperature" := Fin 298]>
  (<["feed_composition" := Fin 0.30]>
  (<["feed_flow" := Fin 1.0]> ∅)))))).

Section GuaranteedSolution.

Variable fsolve :
  (num * num -> num * num) -> num * num -> exn + ((num * num) * (num * num)).
Variable np_power : num -> num -> num.
Variable differential_evolution :
  (list num -> num) -> list (num * num) -> OptimizeResult.
Variable minimize :
  (list num -> num) -> list num -> list (num * num) -> OptimizeResult.

(** [self.find_optimal_conditions(p)] with the default method. *)
Definition optimize_default (self : TargetOptimizer)
    (p : gmap string num) : M Solution :=
  find_optimal_conditions fsolve np_power differential_evolution minimize
    self p "differential_evolution".

(** [TargetOptimizer.guaranteed_solution].  The progress lines it prints
    between the strategies format numbers already computed and cannot
    raise; they are left out of the output. *)
Definition guaranteed_solution (self : TargetOptimizer)
    (base_params : gmap string num) : M Solution :=
  solution <- optimize_default self base_params ;;
  if sol_meets_target solution then ret solution else
  let p2 := params2 base_params in
  solution <- optimize_default self p2 ;;
  if sol_meets_target solution then ret solution else
  let p3 := params3 base_params in
  solution <- optimize_default self p3 ;;
  if sol_meets_target solution then
    ret (set_params (p3 !! "selectivity") None (p3 !! "feed_composition")
           None solution)
  else
  let p4 := params4 base_params in
  solution <- optimize_default self p4 ;;
  if sol_meets_target solution then
    ret (set_params (p4 !! "selectivity") (p4 !! "co2_permeance_gpu")
           (p4 !! "feed_composition") None solution)
  else
  let p5 := params5 base_params in
  solution <- optimize_default self p5 ;;
  if sol_meets_target solution then
    ret (set_params (p5 !! "selectivity") None (p5 !! "feed_composition")
           (p5 !! "temperature") solution)
  else
  let p6 := params6 base_params in
  solution <- optimize_default self p6 ;;
  if sol_meets_target solution then
    ret (set_params (p6 !! "selectivity") (p6 !! "co2_permeance_gpu")
           (p6 !! "feed_composition") (p6 !! "temperature") solution)
  else
  let best_recovery := sol_co2_recovery solution in
  let best_purity := sol_co2_purity solution in
  if (best_recovery >=? 0.78) && (best_purity >=? 0.78) then
    ret (set_meets_target true solution)
  else
  solution <- optimize_default self working_params ;;
  let solution := set_meets_target true solution in
  ret (set_params (working_params !! "selectivity")
         (working_params !! "co2_permeance_gpu")
         (working_params !! "feed_composition")
         (working_params !! "temperature") solution).

End GuaranteedSolution.

(** ** Stand-ins for the collaborators, to run the model on concrete inputs *)

(** A root-finder that stops at a given iterate and reports the residuals
    there. *)
Definition fsolve_at (iterate : num * num)
    (func : num * num -> num * num) (x0 : num * num)
    : exn + ((num * num) * (num * num)) :=
  inr (iterate, func iterate).

(** A root-finder that fails. *)
Definition fsolve_raising (e : exn)
    (func : num * num -> num * num) (x0 : num * num)
    : exn + ((num * num) * (num * num)) :=
  inl e.

(** An optimizer that evaluates the objective at one point and returns it. *)
Definition optimizer_at (x : num * num * num)
    (func : list num -> num) (bnds : list (num * num)) : OptimizeResult :=
  {| res_x := x; res_fun := func [x.1.1; x.1.2; x.2] |}.

Definition minimize_at (x : num * num * num)
    (func : list num -> num) (x0 : list num) (bnds : list (num * num))
    : OptimizeResult :=
  optimizer_at x func bnds.

(** A stand-in for the power function: it answers its base, which is exact
    for the exponent 1. *)
Definition power_stub (a b : num) : num := a.

(** ** Properties stated by the specification *)

(** The [StageResult] invariants of the data model, for the dict [r]
    returned for the model [self] and the feed flow [F]. *)
Definition StageResult_ok (self : MembraneSeparation) (F : num)
    (r : StageResult) : Prop :=
  (0 <? stage_cut r) = true /\ (stage_cut r <? 1) = true /\
  (0 <? permeate_co2 r) = true /\ (permeate_co2 r <? 1) = true /\
  (0 <? retentate_co2 r) = true /\ (retentate_co2 r <? 1) = true /\
  (0 <=? co2_recovery r) = true /\ (co2_recovery r <=? 1) = true /\
  (0 <? membrane_area r) = true /\
  permeate_flow r + retentate_flow r =n= F /\
  (fabs (F * self_z self - retentate_flow r * retentate_co2 r
         - permeate_flow r * permeate_co2 r) / (F * self_z self)
     <? 1e-4) = true.

(** A point lies within a list of three [(low, high)] bounds. *)
Definition within (bnds : list (num * num)) (x : num * num * num) : Prop :=
  match bnds with
  | [(l0, u0); (l1, u1); (l2, u2)] =>
      (l0 <=? x.1.1) = true /\ (x.1.1 <=? u0) = true /\
      (l1 <=? x.1.2) = true /\ (x.1.2 <=? u1) = true /\
      (l2 <=? x.2) = true /\ (x.2 <=? u2) = true
  | _ => True
  end.

(** The guards of [objective_function] on a candidate. *)
Definition guards_reject (feed_pressure permeate_pressure area_factor : num)
    : bool :=
  (permeate_pressure >=? feed_pressure) ||
  ((feed_pressure <? 1) || (feed_pressure >? 20)) ||
  ((permeate_pressure <? 0.05) || (permeate_pressure >? 5)) ||
  ((area_factor <? 0.1) || (area_factor >? 10)).

(** A solution record without its [optimization_penalty]. *)
Definition physical (s : Solution) : Solution :=
  {| sol_feed_pressure := sol_feed_pressure s;
     sol_permeate_pressure := sol_permeate_pressure s;
     sol_pressure_ratio := sol_pressure_ratio s;
     sol_co2_recovery := sol_co2_recovery s;
     sol_co2_purity := sol_co2_purity s;
     sol_membrane_area := sol_membrane_area s;
     sol_stage_cut := sol_stage_cut s;
     sol_meets_target := sol_meets_target s;
     sol_optimization_penalty := 0;
     sol_opex_annual := sol_opex_annual s;
     sol_total_power := sol_total_power s;
     sol_full_results := sol_full_results s;
     sol_selectivity := sol_selectivity s;
     sol_co2_permeance_gpu := sol_co2_permeance_gpu s;
     sol_feed_composition := sol_feed_composition s;
     sol_temperature := sol_temperature s |}.

(** The number of optimizer runs in an output. *)
Fixpoint optimizer_runs (out : list event) : nat :=
  match out with
  | [] => 0
  | Optimize _ :: out' => S (optimizer_runs out')
  | _ :: out' => optimizer_runs out'
  end.

(** The number of membrane models constructed in an output. *)
Fixpoint constructions (out : list event) : nat :=
  match out with
  | [] => 0
  | Construct :: out' => S (constructions out')
  | _ :: out' => constructions out'
  end.

(** The model of the specification's scenario: 15 % CO2 at 298 K, 3 bar
    against 0.2 bar, 800 GPU, selectivity 50. *)
Definition scenario_model : MembraneSeparation :=
  {| self_z := 0.15;
     self_P_f := 3 * 1e5;
     self_P_p := 0.2 * 1e5;
     self_T := 298;
     self_P_CO2 := 800 * GPU_TO_SI;
     self_alpha := 50;
     self_P_N2 := (800 * GPU_TO_SI) / 50 |}.

(** An operating point with an exact rational root: 15 % CO2, 3 bar against
    0.2 bar and selectivity 31 are balanced by stage cut 0.2 and permeate
    fraction 0.5. *)
Definition exact_root_params : gmap string num :=
  <["selectivity" := Fin 31]> ∅.

Definition exact_root_model : MembraneSeparation :=
  {| self_z := 0.15;
     self_P_f := 3 * 1e5;
     self_P_p := 0.2 * 1e5;
     self_T := 298;
     self_P_CO2 := 800 * GPU_TO_SI;
     self_alpha := 31;
     self_P_N2 := (800 * GPU_TO_SI) / 31 |}.

Definition exact_root_results : StageResult :=
  calculate_results exact_root_model 1.0 0.2 0.5.

(** The scenario's membrane fed with pure CO2. *)
Definition pure_feed_model : MembraneSeparation :=
  {| self_z := 1;
     self_P_f := 3 * 1e5;
     self_P_p := 0.2 * 1e5;
     self_T := 298;
     self_P_CO2 := 800 * GPU_TO_SI;
     self_alpha := 50;
     self_P_N2 := (800 * GPU_TO_SI) / 50 |}.

(** The attributes a successful call of the constructor sets. *)
Definition attributes (feed_composition feed_pressure permeate_pressure
    temperature co2_permeance_gpu selectivity : num) : MembraneSeparation :=
  {| self_z := feed_composition;
     self_P_f := feed_pressure * 1e5;
     self_P_p := permeate_pressure * 1e5;
     self_T := temperature;
     self_P_CO2 := co2_permeance_gpu * GPU_TO_SI;
     self_alpha := selectivity;
     self_P_N2 := co2_permeance_gpu * GPU_TO_SI / selectivity |}.

(** The membrane [find_optimal_conditions] solves after the search stopped
    at [x]. *)
Definition final_membrane (base_params : gmap string num)
    (x : num * num * num) : MembraneSeparation :=
  attributes (get base_params "feed_composition" 0.15) x.1.1 x.1.2
    (get base_params "temperature" 298)
    (get base_params "co2_permeance_gpu" 800)
    (get base_params "selectivity" 50).

(** The dict [find_optimal_conditions] compiles from the optimizer's result
    and the solver's dict. *)
Definition optimal_solution (np_power : num -> num -> num)
    (self : TargetOptimizer) (base_params : gmap string num)
    (result : OptimizeResult) (results : StageResult) : Solution :=
  let feed_pressure := (res_x result).1.1 in
  let permeate_pressure := (res_x result).1.2 in
  let feed_flow := get base_params "feed_flow" 1.0 in
  let temperature := get base_params "temperature" 298 in
  let calc :=
    set_costs (get base_params "electricity_cost" 0.07)
      (get base_params "membrane_cost_per_m2" 50) (opex_calc self) in
  let compression_power :=
    calculate_compression_energy np_power feed_flow 1.0 feed_pressure
      temperature 0.75 1 in
  let vacuum_power :=
    if permeate_pressure <? 1.0
    then calculate_compression_energy np_power (permeate_flow results)
           permeate_pressure 1.0 temperature 0.75 1
    else 0 in
  {| sol_feed_pressure := feed_pressure;
     sol_permeate_pressure := permeate_pressure;
     sol_pressure_ratio := feed_pressure / permeate_pressure;
     sol_co2_recovery := co2_recovery results;
     sol_co2_purity := permeate_co2 results;
     sol_membrane_area := membrane_area results;
     sol_stage_cut := stage_cut results;
     sol_meets_target :=
       (co2_recovery results >=? recovery_target self) &&
       (permeate_co2 results >=? purity_target self);
     sol_optimization_penalty := res_fun result;
     sol_opex_annual :=
       calculate_annual_opex calc (membrane_area results) compression_power
         vacuum_power 2 1;
     sol_total_power := compression_power + vacuum_power;
     sol_full_results := results;
     sol_selectivity := None;
     sol_co2_permeance_gpu := None;
     sol_feed_composition := None;
     sol_temperature := None |}.

(** The optimizer of the scenario, and the solution found when the search
    stops at 3 bar against 0.2 bar with area factor 1 on the exact-root
    operating point. *)
Definition scenario_optimizer : TargetOptimizer :=
  TargetOptimizer_init 0.80 0.80.

Definition exact_root_solution : Solution :=
  optimal_solution power_stub scenario_optimizer exact_root_params
    (optimizer_at (Fin 3, Fin 0.2, Fin 1)
       (fun x => (objective_function (fsolve_at (Fin 0.2, Fin 0.5))
                    scenario_optimizer x
                    (fixed_params_of exact_root_params)).2)
       bounds)
    exact_root_results.

(** ** The escalation ladder as the specification words it *)

(** "Multiply [v] by [factor], capped at [limit]". *)
Definition capped (factor limit v : num) : num := py_min limit (v * factor).

(** A fallback strategy: the parameters it retries with, and the parameter
    keys it copies into the solution it accepts. *)
Record rung : Type := {
  rung_params : gmap string num;
  rung_keys : list string
}.

Definition write_back (r : rung) (s : Solution) : Solution :=
  let pick key current :=
    if bool_decide (key ∈ rung_keys r)
    then match rung_params r !! key with
         | Some v => Some v
         | None => current
         end
    else current in
  {| sol_feed_pressure := sol_feed_pressure s;
     sol_permeate_pressure := sol_permeate_pressure s;
     sol_pressure_ratio := sol_pressure_ratio s;
     sol_co2_recovery := sol_co2_recovery s;
     sol_co2_purity := sol_co2_purity s;
     sol_membrane_area := sol_membrane_area s;
     sol_stage_cut := sol_stage_cut s;
     sol_meets_target := sol_meets_target s;
     sol_optimization_penalty := sol_optimization_penalty s;
     sol_opex_annual := sol_opex_annual s;
     sol_total_power := sol_total_power s;
     sol_full_results := sol_full_results s;
     sol_selectivity := pick "selectivity" (sol_selectivity s);
     sol_co2_permeance_gpu :=
       pick "co2_permeance_gpu" (sol_co2_permeance_gpu s);
     sol_feed_composition :=
       pick "feed_composition" (sol_feed_composition s);
     sol_temperature := pick "temperature" (sol_temperature s) |}.

(** "Set meets_target=True": the same record, flagged as meeting the
    target whatever its recovery and purity are. *)
Definition declared_met (s : Solution) : Solution :=
  {| sol_feed_pressure := sol_feed_pressure s;
     sol_permeate_pressure := sol_permeate_pressure s;
     sol_pressure_ratio := sol_pressure_ratio s;
     sol_co2_recovery := sol_co2_recovery s;
     sol_co2_purity := sol_co2_purity s;
     sol_membrane_area := sol_membrane_area s;
     sol_stage_cut := sol_stage_cut s;
     sol_meets_target := true;
     sol_optimization_penalty := sol_optimization_penalty s;
     sol_opex_annual := sol_opex_annual s;
     sol_total_power := sol_total_power s;
     sol_full_results := sol_full_results s;
     sol_selectivity := sol_selectivity s;
     sol_co2_permeance_gpu := sol_co2_permeance_gpu s;
     sol_feed_composition := sol_feed_composition s;
     sol_temperature := sol_temperature s |}.

(** Strategies 2 to 6, each starting again from the user's parameters. *)
Definition escalation_rungs (base_params : gmap string num) : list rung :=
  let selectivity := get base_params "selectivity" 50 in
  let feed := get base_params "feed_composition" 0.15 in
  let permeance := get base_params "co2_permeance_gpu" 800 in
  [ {| rung_params :=
         <["selectivity" := capped 1.5 100 selectivity]> base_params;
       rung_keys := [] |};
    {| rung_params :=
         <["selectivity" := capped 1.3 100 selectivity]>
         (<["feed_composition" := capped 1.5 0.50 feed]> base_params);
       rung_keys := ["feed_composition"; "selectivity"] |};
    {| rung_params :=
         <["feed_composition" := capped 1.3 0.40 feed]>
         (<["co2_permeance_gpu" := permeance * 0.7]>
         (<["selectivity" := Fin 150]> base_params));
       rung_keys := ["selectivity"; "co2_permeance_gpu"; "feed_composition"] |};
    {| rung_params :=
         <["feed_composition" := capped 2.0 0.50 feed]>
         (<["selectivity" := Fin 120]>
         (<["temperature" := Fin 308]> base_params));
       rung_keys := ["temperature"; "selectivity"; "feed_composition"] |};
    {| rung_params :=
         <["temperature" := Fin 298]>
         (<["feed_composition" := Fin 0.30]>
         (<["co2_permeance_gpu" := Fin 1200]>
         (<["selectivity" := Fin 200]> base_params)));
       rung_keys := ["selectivity"; "co2_permeance_gpu"; "feed_composition";
                     "temperature"] |} ].

(** Strategy 8: the hardcoded parameters. *)
Definition engineered_fallback : rung :=
  {| rung_params :=
       list_to_map
         [("feed_flow", Fin 1.0); ("feed_composition", Fin 0.30);
          ("temperature", Fin 298); ("co2_permeance_gpu", Fin 1500);
          ("selectivity", Fin 250); ("electricity_cost", Fin 0.07);
          ("membrane_cost_per_m2", Fin 50)];
     rung_keys := ["selectivity"; "co2_permeance_gpu"; "feed_composition";
                   "temperature"] |}.

(** Climbing: retry with each rung in turn and stop at the first solution
    that meets the target; [exhausted] decides when none does, from the
    last solution tried. *)
Fixpoint climb (attempt : gmap string num -> M Solution)
    (rungs : list rung) (previous : Solution)
    (exhausted : Solution -> M Solution) : M Solution :=
  match rungs with
  | [] => exhausted previous
  | r :: rest =>
      solution <- attempt (rung_params r) ;;
      if sol_meets_target solution then ret (write_back r solution)
      else climb attempt rest solution exhausted
  end.

(** Strategies 7 and 8: accept the last solution as close enough when its
    recovery and purity both reach 0.78, otherwise optimize once more with
    the hardcoded parameters; either way [meets_target] is set. *)
Definition relax_or_force (attempt : gmap string num -> M Solution)
    (last : Solution) : M Solution :=
  if (sol_co2_recovery last >=? 0.78) && (sol_co2_purity last >=? 0.78)
  then ret (declared_met last)
  else
    solution <- attempt (rung_params engineered_fallback) ;;
    ret (write_back engineered_fallback (declared_met solution)).

Definition escalation (attempt : gmap string num -> M Solution)
    (base_params : gmap string num) : M Solution :=
  solution <- attempt base_params ;;
  if sol_meets_target solution then ret solution
  else climb attempt (escalation_rungs base_params) solution
         (relax_or_force attempt).

(** Parameters with feed composition in (0,1) and temperature 298 K, but
    with the selectivity 0 that the data model excludes. *)
Definition zero_selectivity_params : gmap string num :=
  <["selectivity" := Fin 0]>
  (<["temperature" := Fin 298]>
  (<["feed_composition" := Fin 0.15]> ∅)).

(** ** The rest of membrane_separation.py and auto_optimizer.py *)

Section CompressorWork.

(** [np.log]. *)
Variable np_log : num -> num.

(** [MembraneSeparation.estimate_compressor_work], on a model constructed
    from Python numbers (as [sensitivity_analysis] does), so [P2 / P1] is
    Python's division. *)
Definition estimate_compressor_work (self : MembraneSeparation)
    (feed_flow P_initial : num) : M num :=
  if self_P_f self / 1e5 <=? P_initial then ret (Fin 0.0) else
  let n_dot := feed_flow * 1000 in
  let P1 := P_initial * 1e5 in
  let P2 := self_P_f self in
  ratio <- py_div P2 P1 ;;
  let W := n_dot * R_GAS * self_T self * np_log ratio / 1000 in
  ret W.

End CompressorWork.

Section MultipleSolutions.

Variable fsolve :
  (num * num -> num * num) -> num * num -> exn + ((num * num) * (num * num)).
Variable np_power : num -> num -> num.
Variable differential_evolution :
  (list num -> num) -> list (num * num) -> OptimizeResult.
Variable minimize :
  (list num -> num) -> list num -> list (num * num) -> OptimizeResult.

(** One iteration of the loop of [find_multiple_solutions]: the state is
    [(best_solution, best_penalty)]. *)
Definition find_multiple_solutions_run (self : TargetOptimizer)
    (base_params : gmap string num) (i : nat)
    (best : option Solution * num) : list event * (option Solution * num) :=
  match find_optimal_conditions fsolve np_power differential_evolution
          minimize self base_params "differential_evolution" with
  | (out, inr solution) =>
      if sol_meets_target solution &&
         (sol_optimization_penalty solution <? best.2)
      then (out, (Some solution, sol_optimization_penalty solution))
      else (out, best)
  | (out, inl e) =>
      (out ++ [Print ("Run " +:+ pretty (i + 1)%nat +:+ " failed: "
                      +:+ exn_str e)],
       best)
  end.

Fixpoint find_multiple_solutions_loop (self : TargetOptimizer)
    (base_params : gmap string num) (runs : list nat)
    (best : option Solution * num) : list event * (option Solution * num) :=
  match runs with
  | [] => ([], best)
  | i :: rest =>
      let '(out, best') := find_multiple_solutions_run self base_params i best in
      let '(out', final) :=
        find_multiple_solutions_loop self base_params rest best' in
      (out ++ out', final)
  end.

(** [TargetOptimizer.find_multiple_solutions]: the best solution or
    [None]. *)
Definition find_multiple_solutions (self : TargetOptimizer)
    (base_params : gmap string num) (num_runs : nat)
    : list event * option Solution :=
  let '(out, best) :=
    find_multiple_solutions_loop self base_params (seq 0 num_runs)
      (None, PInf) in
  (out, best.1).

(** [auto_optimize_for_target].  [print_results] only switches the console
    report, which formats numbers already computed and is left out of the
    output, as the progress lines of [guaranteed_solution] are. *)
Definition auto_optimize_for_target (feed_composition temperature : num)
    (membrane_type : string) (print_results : bool) : M Solution :=
  let '(co2_permeance_gpu, selectivity) :=
    if String.eqb membrane_type "Polaris"
    then (Fin 1000, Fin 40) else (Fin 800, Fin 50) in
  let base_params : gmap string num :=
    <["membrane_cost_per_m2" := Fin 50]>
    (<["electricity_cost" := Fin 0.07]>
    (<["selectivity" := selectivity]>
    (<["co2_permeance_gpu" := co2_permeance_gpu]>
    (<["temperature" := temperature]>
    (<["feed_composition" := feed_composition]>
    (<["feed_flow" := Fin 1.0]> ∅)))))) in
  let optimizer := TargetOptimizer_init 0.80 0.80 in
  guaranteed_solution fsolve np_power differential_evolution minimize
    optimizer base_params.

End MultipleSolutions.

(** ** More stand-ins *)

(** A root-finder that tries a list of candidate iterates and stops at the
    first one where both residuals vanish; when none does it stays at its
    initial guess. *)
Fixpoint fsolve_among (candidates : list (num * num))
    (func : num * num -> num * num) (x0 : num * num)
    : exn + ((num * num) * (num * num)) :=
  match candidates with
  | [] => inr (x0, func x0)
  | c :: rest =>
      if is_zero (func c).1 && is_zero (func c).2
      then inr (c, func c)
      else fsolve_among rest func x0
  end.

(** A logarithm stand-in: it answers its argument minus one, which has the
    sign of the logarithm. *)
Definition log_stub (a : num) : num := a - 1.

(** A feed of 30 % CO2 and a search that stops at 14 bar against 0.5 bar:
    with selectivity 63.5 the stage is balanced exactly by stage cut 0.3 and
    permeate fraction 0.8, which is 80 % recovery at 80 % purity.  A user
    selectivity of 127/3 is raised to 63.5 by the second strategy. *)
Definition second_rung_params : gmap string num :=
  <["selectivity" := Fin (127 # 3)]>
  (<["feed_composition" := Fin 0.30]> ∅).

Definition second_rung_fsolve :=
  fsolve_among [(Fin 0.3, Fin 0.8)].

Definition second_rung_optimizer :=
  optimizer_at (Fin 14, Fin 0.5, Fin 1).

(** The solution the second strategy finds on that operating point. *)
Definition second_rung_solution : Solution :=
  let base := params2 second_rung_params in
  optimal_solution power_stub scenario_optimizer base
    (second_rung_optimizer
       (fun x => (objective_function second_rung_fsolve scenario_optimizer x
                    (fixed_params_of base)).2)
       bounds)
    (calculate_results (final_membrane base (Fin 14, Fin 0.5, Fin 1))
       1.0 0.3 0.8).

(** ** What a returned [meets_target] stands for *)

(** The target is met by the numbers of the record. *)
Definition genuine (self : TargetOptimizer) (s : Solution) : bool :=
  (sol_co2_recovery s >=? recovery_target self) &&
  (sol_co2_purity s >=? purity_target self).

(** Recovery and purity both reach the relaxed threshold 0.78. *)
Definition relaxed (s : Solution) : bool :=
  (sol_co2_recovery s >=? 0.78) && (sol_co2_purity s >=? 0.78).

(** The record carries the hardcoded parameters of the last strategy. *)
Definition forced (s : Solution) : Prop :=
  sol_selectivity s = Some (Fin 250) /\
  sol_co2_permeance_gpu s = Some (Fin 1500) /\
  sol_feed_composition s = Some (Fin 0.30) /\
  sol_temperature s = Some (Fin 298).

(** ** The rest of opex_calculator.py *)

(** The nested dict [calculate_annual_opex] returns, entry by entry. *)
Record OpexBreakdown : Type := {
  energy_annual_kwh : num;
  energy_power_kw : num;
  energy_cost : num;
  energy_percentage : num;
  replacement_area : num;
  replacement_lifetime : num;
  replacement_cost : num;
  replacement_percentage : num;
  labor_direct : num;
  labor_admin : num;
  labor_total : num;
  labor_percentage : num;
  maintenance_cost : num;
  maintenance_percentage : num;
  water_annual_usage : num;
  water_annual_cost : num;
  water_percentage : num;
  chemicals_annual_cost : num;
  chemicals_percentage : num;
  insurance_cost : num;
  insurance_percentage : num;
  miscellaneous_cost : num;
  miscellaneous_percentage : num;
  total_annual : num;
  total_with_availability : num;
  total_daily : num;
  total_hourly : num
}.

(** [OPEXCalculator.calculate_annual_opex] with the whole breakdown.  At
    every call in the repository the membrane area is a NumPy scalar, so
    the total is one too and the percentages are NumPy divisions. *)
Definition annual_opex_breakdown (self : OPEXCalculator)
    (membrane_area compression_power vacuum_power
     labor_hours_per_day water_usage_m3_per_day : num) : OpexBreakdown :=
  let total_power := compression_power + vacuum_power in
  let annual_energy := total_power * operating_hours_per_year self in
  let energy_cost := annual_energy * electricity_cost self in
  let annual_membrane_replacement :=
    (membrane_area * membrane_cost_per_m2 self) / membrane_lifetime self in
  let annual_labor_hours := labor_hours_per_day * 365 in
  let direct_labor_cost := annual_labor_hours * labor_cost_per_hour self in
  let admin_labor_cost := direct_labor_cost * admin_overhead self in
  let total_labor_cost := direct_labor_cost + admin_labor_cost in
  let estimated_capex :=
    membrane_area * membrane_cost_per_m2 self + compression_power * 500 in
  let maintenance_cost := estimated_capex * maintenance_factor self in
  let annual_water_usage := water_usage_m3_per_day * 365 in
  let water_cost := annual_water_usage * water_cost self in
  let chemicals_cost := chemicals_cost self in
  let insurance_cost := estimated_capex * insurance_rate self in
  let subtotal :=
    energy_cost + annual_membrane_replacement + total_labor_cost +
    maintenance_cost + water_cost + chemicals_cost + insurance_cost in
  let miscellaneous := subtotal * 0.02 in
  let total_opex := subtotal + miscellaneous in
  let effective_opex := total_opex / plant_availability self in
  {| energy_annual_kwh := annual_energy;
     energy_power_kw := total_power;
     energy_cost := energy_cost;
     energy_percentage := energy_cost / total_opex * 100;
     replacement_area := membrane_area;
     replacement_lifetime := membrane_lifetime self;
     replacement_cost := annual_membrane_replacement;
     replacement_percentage := annual_membrane_replacement / total_opex * 100;
     labor_direct := direct_labor_cost;
     labor_admin := admin_labor_cost;
     labor_total := total_labor_cost;
     labor_percentage := total_labor_cost / total_opex * 100;
     maintenance_cost := maintenance_cost;
     maintenance_percentage := maintenance_cost / total_opex * 100;
     water_annual_usage := annual_water_usage;
     water_annual_cost := water_cost;
     water_percentage := water_cost / total_opex * 100;
     chemicals_annual_cost := chemicals_cost;
     chemicals_percentage := chemicals_cost / total_opex * 100;
     insurance_cost := insurance_cost;
     insurance_percentage := insurance_cost / total_opex * 100;
     miscellaneous_cost := miscellaneous;
     miscellaneous_percentage := miscellaneous / total_opex * 100;
     total_annual := total_opex;
     total_with_availability := effective_opex;
     total_daily := effective_opex / 365;
     total_hourly := effective_opex / 8760 |}.

(** The dict [calculate_co2_capture_cost] returns. *)
Record CostMetrics : Type := {
  annual_opex_cost : num;
  annualized_capex : num;
  total_annual_cost : num;
  co2_captured : num;
  cost_per_tonne : num;
  cost_per_kg : num;
  opex_fraction : num;
  capex_fraction : num
}.

Section CaptureCost.

(** Python's [x ** n] on a float and a positive [int], where [x] is the
    float sum [1 + interest_rate]: the result is rounded, so it can be
    exactly [1.0] for a tiny positive rate, and a result out of the range
    of floats raises [OverflowError].  Whether the function below returns
    depends on both, so the operation is a parameter. *)
Variable float_pow : num -> nat -> exn + num.

(** [x ** n] for a float and a non-negative [int]: [x ** 0] is [1.0] for
    every [x]. *)
Definition py_pow (x : num) (n : nat) : M num :=
  match n with
  | O => ret (Fin 1)
  | S _ => lift (float_pow x n)
  end.

(** [OPEXCalculator.calculate_co2_capture_cost].  The amortization period
    is a count of years and the interest rate a Python float, so the
    capital recovery factor is computed with Python's power and division;
    the costs come from the breakdown and are NumPy scalars. *)
Definition calculate_co2_capture_cost (opex_breakdown : OpexBreakdown)
    (co2_captured_tonnes_per_year capex_total : num)
    (amortization_years : nat) (interest_rate : num) : M CostMetrics :=
  let annual_opex := total_with_availability opex_breakdown in
  CRF <-
    (if interest_rate >? 0
     then
       growth <- py_pow (1 + interest_rate) amortization_years ;;
       growth' <- py_pow (1 + interest_rate) amortization_years ;;
       py_div (interest_rate * growth) (growth' - 1)
     else py_div 1 (Fin (inject_Z (Z.of_nat amortization_years)))) ;;
  let annualized_capex := capex_total * CRF in
  let total_annual_cost := annual_opex + annualized_capex in
  let cost_per_tonne :=
    if co2_captured_tonnes_per_year >? 0
    then total_annual_cost / co2_captured_tonnes_per_year
    else PInf in
  let cost_per_kg := cost_per_tonne / 1000 in
  ret {| annual_opex_cost := annual_opex;
         annualized_capex := annualized_capex;
         total_annual_cost := total_annual_cost;
         co2_captured := co2_captured_tonnes_per_year;
         cost_per_tonne := cost_per_tonne;
         cost_per_kg := cost_per_kg;
         opex_fraction := annual_opex / total_annual_cost;
         capex_fraction := annualized_capex / total_annual_cost |}.

End CaptureCost.

(** A power without rounding or overflow, to run the model on concrete
    inputs. *)
Fixpoint fpow (x : num) (n : nat) : num :=
  match n with
  | O => 1
  | S n' => x * fpow x n'
  end.

Definition exact_pow (x : num) (n : nat) : exn + num := inr (fpow x n).

Section VacuumEnergy.

Variable np_log : num -> num.

(** [OPEXCalculator.calculate_vacuum_energy], called with Python floats for
    the pressures: [P2 / P1] is Python's division, and the final division
    by the efficiency has a NumPy numerator. *)
Definition calculate_vacuum_energy
    (permeate_flow_kmol_s P_permeate P_ambient temperature efficiency : num)
    : M num :=
  if P_permeate >=? P_ambient then ret (Fin 0.0) else
  let R := Fin 8.314 in
  let P1 := P_permeate * 1e5 in
  let P2 := P_ambient * 1e5 in
  let n_dot := permeate_flow_kmol_s * 1000 in
  ratio <- py_div P2 P1 ;;
  let W := R * temperature * n_dot * np_log ratio / efficiency in
  ret (W / 1000).

End VacuumEnergy.

(** The calculator as the optimizer configures it, and a breakdown for the
    exact-root operating point. *)
Definition scenario_calculator : OPEXCalculator :=
  set_costs 0.07 50 OPEXCalculator_init.

Definition scenario_breakdown : OpexBreakdown :=
  annual_opex_breakdown scenario_calculator 40000 3000 500 2 1.

(** ** Facts about numbers *)

Lemma Qltb_lt (a b : Q) : Qltb a b = true <-> (a < b)%Q.
Proof.
  unfold Qltb. rewrite negb_true_iff.
  destruct (Qle_bool b a) eqn:E.
  - apply Qle_bool_iff in E. split; [discriminate | intros H; exfalso; lra].
  - split; [intros _ | reflexivity].
    apply Qnot_le_lt. intros H. apply Qle_bool_iff in H. congruence.
Qed.

Lemma Qltb_ge (a b : Q) : Qltb a b = false <-> (b <= a)%Q.
Proof.
  unfold Qltb. rewrite negb_false_iff. apply Qle_bool_iff.
Qed.

Lemma Qle_bool_gt (a b : Q) : Qle_bool a b = false <-> (b < a)%Q.
Proof.
  rewrite <- Qltb_lt. unfold Qltb. rewrite negb_true_iff. reflexivity.
Qed.

Lemma Qeq_bool_false (a b : Q) : Qeq_bool a b = false <-> ~ (a == b)%Q.
Proof.
  split.
  - intros H E. apply Qeq_bool_iff in E. congruence.
  - intros H. destruct (Qeq_bool a b) eqn:E; [|reflexivity].
    apply Qeq_bool_iff in E. contradiction.
Qed.

Lemma fle_zero_false_nonzero (a : num) :
  (a <=? 0) = false -> is_zero a = false.
Proof.
  destruct a as [q| | |]; simpl; try reflexivity.
  intros H. apply Qle_bool_gt in H. apply Qeq_bool_false. lra.
Qed.

#[export] Instance num_eq_equivalence : Equivalence num_eq.
Proof.
  split.
  - intros [q| | |]; simpl; auto. reflexivity.
  - intros [p| | |] [q| | |]; simpl; auto. intros H. symmetry. exact H.
  - intros [p| | |] [q| | |] [r| | |]; simpl; auto; try contradiction.
    intros H1 H2. rewrite H1. exact H2.
Qed.

Lemma scenario_model_init :
  MembraneSeparation_init PythonNumbers 0.15 3 0.2 298 800 50
  = ([Construct], inr scenario_model).
Proof. reflexivity. Qed.

Lemma Qsign_comp (p q : Q) : (p == q)%Q -> Qsign p = Qsign q.
Proof. intros H. unfold Qsign. rewrite H. reflexivity. Qed.

Lemma scale_inf_comp (p q : Q) (pos : bool) :
  (p == q)%Q -> scale_inf p pos = scale_inf q pos.
Proof. intros H. unfold scale_inf. rewrite (Qsign_comp p q H). reflexivity. Qed.

#[export] Instance fadd_proper : Proper (num_eq ==> num_eq ==> num_eq) fadd.
Proof.
  intros [p| | |] [p'| | |] Hp [q| | |] [q'| | |] Hq; simpl in *;
    try contradiction; try exact I.
  rewrite Hp, Hq. reflexivity.
Qed.

#[export] Instance fneg_proper : Proper (num_eq ==> num_eq) fneg.
Proof.
  intros [p| | |] [p'| | |] Hp; simpl in *; try contradiction; try exact I.
  rewrite Hp. reflexivity.
Qed.

#[export] Instance fsub_proper : Proper (num_eq ==> num_eq ==> num_eq) fsub.
Proof. intros a a' Ha b b' Hb. unfold fsub. rewrite Ha, Hb. reflexivity. Qed.

#[export] Instance fmul_proper : Proper (num_eq ==> num_eq ==> num_eq) fmul.
Proof.
  intros [p| | |] [p'| | |] Hp [q| | |] [q'| | |] Hq; simpl in *;
    try contradiction; try exact I;
    try (rewrite (scale_inf_comp _ _ _ Hp); reflexivity);
    try (rewrite (scale_inf_comp _ _ _ Hq); reflexivity).
  rewrite Hp, Hq. reflexivity.
Qed.

Lemma fadd_assoc (a b c : num) : a + b + c =n= a + (b + c).
Proof.
  destruct a as [p| | |], b as [q| | |], c as [r| | |]; simpl;
    try exact I. ring.
Qed.

Lemma fadd_comm (a b : num) : a + b =n= b + a.
Proof.
  destruct a as [p| | |], b as [q| | |]; simpl; try exact I. ring.
Qed.

Lemma fmul_comm (a b : num) : a * b =n= b * a.
Proof.
  destruct a as [p| | |], b as [q| | |]; simpl; try exact I;
    try reflexivity. ring.
Qed.

Lemma fadd_zero_l (a c : num) : a =n= 0 -> a + c =n= c.
Proof.
  destruct a as [p| | |], c as [r| | |]; simpl; intros H;
    try contradiction; try exact I.
  rewrite H. ring.
Qed.

(** [0.1 * x / d] and [(x / d) * 0.1] agree for a positive constant [d]. *)
Lemma scale_swap (x : num) (d : Q) :
  (0 < d)%Q -> 0.1 * x / d =n= (x / d) * 0.1.
Proof.
  intros Hd.
  assert (Hz : Qeq_bool d 0 = false) by (apply Qeq_bool_false; lra).
  assert (Hn : Qltb d 0 = false) by (apply Qltb_ge; lra).
  destruct x as [q| | |]; simpl; rewrite ?Hz, ?Hn; simpl; try exact I.
  field. lra.
Qed.

(** A shortfall term vanishes when the result equals the target. *)
Lemma shortfall_zero (t : num) : sq (py_max 0 (t - t)) * 100 =n= 0.
Proof.
  destruct t as [q| | |]; try (vm_compute; reflexivity).
  unfold py_max, fsub, fneg, fadd, flt.
  assert (H : Qltb 0 (q + - q) = false) by (apply Qltb_ge; lra).
  rewrite H. vm_compute. reflexivity.
Qed.

(** ** The residual function *)

(** C6: when a physical bound is violated (the retentate flow [R] is not
    positive, or the retentate fraction [x] or the permeate fraction [y]
    compares outside [0,1]), the residual function returns the finite
    sentinel [(1e10, 1e10)], and every division it evaluated on the way had
    a non-zero divisor. *)
Theorem equations_sentinel_on_bound_violation
    (self : MembraneSeparation) (F theta y : num) :
  let P := theta * F in
  let R := F - P in
  let x := (F * self_z self - P * y) / R in
  (R <=? 0) || ((x <? 0) || (x >? 1) || (y <? 0) || (y >? 1)) = true ->
  equations self F (theta, y) = (Fin 1e10, Fin 1e10) /\
  Forall (fun d => is_zero d = false)
         (equations_divisors self F (theta, y)).1.
Proof.
  intros P R x Hviol.
  unfold equations, equations_divisors. fold P. fold R. fold x.
  destruct (R <=? 0) eqn:HR; simpl.
  - split; [reflexivity | constructor].
  - simpl in Hviol. rewrite Hviol. simpl. split; [reflexivity|].
    repeat constructor. apply fle_zero_false_nonzero. exact HR.
Qed.

Lemma equations_sentinel_on_bound_violation_witness :
  equations scenario_model 1 (Fin 1.5, Fin 0.5) = (Fin 1e10, Fin 1e10) /\
  Forall (fun d => is_zero d = false)
         (equations_divisors scenario_model 1 (Fin 1.5, Fin 0.5)).1.
Proof.
  apply (equations_sentinel_on_bound_violation scenario_model 1 1.5 0.5).
  vm_compute. reflexivity.
Defined.

(** Every division the residual function evaluates has a non-zero divisor,
    whatever the iterate, as long as [F * z + 1e-10] is not zero. *)
Lemma equations_divisors_nonzero (self : MembraneSeparation)
    (F : num) (vars : num * num) :
  is_zero (F * self_z self + 1e-10) = false ->
  Forall (fun d => is_zero d = false) (equations_divisors self F vars).1.
Proof.
  intros Hden. destruct vars as [theta y]. unfold equations_divisors.
  destruct (F - theta * F <=? 0) eqn:HR; [constructor|].
  apply fle_zero_false_nonzero in HR.
  match goal with |- context [if ?c then ([_], sentinel) else _] =>
    destruct c end; [repeat constructor; exact HR|].
  match goal with |- context [if ?c then ([_], sentinel) else _] =>
    destruct c eqn:HJ end; [repeat constructor; exact HR|].
  apply orb_false_iff in HJ. destruct HJ as [_ HJ2].
  set (J := (self_P_N2 self * _)%num) in *.
  assert (HJz : is_zero J = false).
  { destruct J as [q| | |]; simpl in *; try reflexivity.
    apply Qltb_ge in HJ2. apply Qeq_bool_false. intros E.
    rewrite E in HJ2. vm_compute in HJ2. apply HJ2. reflexivity. }
  simpl. constructor; [exact HR|]. constructor; [exact HJz|].
  destruct (y <? 1) eqn:Hy; simpl.
  - constructor.
    + destruct y as [q| | |]; simpl in *; try reflexivity; try discriminate.
      apply Qltb_lt in Hy. apply Qeq_bool_false. lra.
    + repeat constructor. exact Hden.
  - repeat constructor. exact Hden.
Qed.

(** ** Construction of the membrane model *)

(** The claim C9 fails on the code: with selectivity -1 the constructor
    returns a model, whose N2 permeance is the CO2 permeance divided by -1,
    whether the operands are Python numbers or NumPy scalars. *)
Lemma init_accepts_negative_selectivity :
  (exists m,
     MembraneSeparation_init PythonNumbers 0.15 3 0.2 298 800 (Fin (-1)%Q)
     = ([Construct], inr m) /\
     self_alpha m = Fin (-1)%Q /\
     self_P_N2 m =n= Fin (- (800 * 3.348e-10))%Q) /\
  (exists m,
     MembraneSeparation_init NumPyScalar 0.15 3 0.2 298 800 (Fin (-1)%Q)
     = ([Construct], inr m) /\
     self_alpha m = Fin (-1)%Q /\
     self_P_N2 m =n= Fin (- (800 * 3.348e-10))%Q).
Proof.
  split; (eexists; split; [reflexivity|]; split; [reflexivity|]);
    vm_compute; reflexivity.
Qed.

(** A selectivity of zero that is a NumPy scalar, as a sweep starting at 0
    passes it, is divided by without any exception: the model is returned
    with an infinite N2 permeance. *)
Lemma init_divides_by_numpy_zero :
  exists m,
    MembraneSeparation_init NumPyScalar 0.15 3 0.2 298 2500 (Fin 0)
    = ([Construct], inr m) /\
    self_alpha m = Fin 0 /\ self_P_N2 m = PInf.
Proof.
  eexists. split; [reflexivity|]. split; reflexivity.
Qed.

(** The constructor on Python numbers, by the value of the selectivity. *)
Lemma MembraneSeparation_init_cases
    (feed_composition feed_pressure permeate_pressure temperature
     co2_permeance_gpu selectivity : num) :
  MembraneSeparation_init PythonNumbers feed_composition feed_pressure
    permeate_pressure temperature co2_permeance_gpu selectivity
  = ([Construct],
     if is_zero selectivity then inl ZeroDivisionError
     else inr (attributes feed_composition feed_pressure permeate_pressure
                 temperature co2_permeance_gpu selectivity)).
Proof.
  unfold MembraneSeparation_init, py_div.
  destruct (is_zero selectivity); reflexivity.
Qed.

(** The constructor with a NumPy scalar among the operands never fails. *)
Lemma MembraneSeparation_init_numpy
    (feed_composition feed_pressure permeate_pressure temperature
     co2_permeance_gpu selectivity : num) :
  MembraneSeparation_init NumPyScalar feed_composition feed_pressure
    permeate_pressure temperature co2_permeance_gpu selectivity
  = ([Construct],
     inr (attributes feed_composition feed_pressure permeate_pressure
            temperature co2_permeance_gpu selectivity)).
Proof. reflexivity. Qed.

(** A positive finite number over a zero is [+inf] in NumPy. *)
Lemma fdiv_pos_zero (p : Q) (d : num) :
  (0 < p)%Q -> is_zero d = true -> (Fin p / d)%num = PInf.
Proof.
  intros Hp Hd. destruct d as [q| | |]; try discriminate.
  cbn [is_zero] in Hd. cbn [fdiv]. rewrite Hd.
  unfold scale_inf, Qsign.
  assert (E : (p ?= 0) = Gt) by (apply Qgt_alt; exact Hp).
  rewrite E. reflexivity.
Qed.

(** C9, amended: the constructor checks nothing and has no
    [InvalidParameter] error.  For every selectivity other than zero,
    negative ones included, it returns the model whose N2 permeance is the
    CO2 permeance divided by the selectivity.  With a selectivity of zero it
    raises Python's [ZeroDivisionError] when permeance and selectivity are
    both Python numbers, and when one of them is a NumPy scalar it divides
    silently: the model is returned, with an N2 permeance of [+inf] for a
    positive finite CO2 permeance. *)
Theorem init_fails_only_on_zero_selectivity (kind : operands)
    (feed_composition feed_pressure permeate_pressure temperature
     co2_permeance_gpu selectivity : num) :
  let model :=
    {| self_z := feed_composition;
       self_P_f := feed_pressure * 1e5;
       self_P_p := permeate_pressure * 1e5;
       self_T := temperature;
       self_P_CO2 := co2_permeance_gpu * GPU_TO_SI;
       self_alpha := selectivity;
       self_P_N2 := co2_permeance_gpu * GPU_TO_SI / selectivity |} in
  MembraneSeparation_init kind feed_composition feed_pressure
    permeate_pressure temperature co2_permeance_gpu selectivity
  = ([Construct],
     match kind with
     | PythonNumbers =>
         if is_zero selectivity then inl ZeroDivisionError else inr model
     | NumPyScalar => inr model
     end) /\
  (forall perm : Q,
     co2_permeance_gpu = Fin perm -> (0 < perm)%Q ->
     is_zero selectivity = true -> self_P_N2 model = PInf).
Proof.
  intros model. split.
  - destruct kind.
    + exact (MembraneSeparation_init_cases feed_composition feed_pressure
               permeate_pressure temperature co2_permeance_gpu selectivity).
    + reflexivity.
  - intros perm -> Hperm Hsel. subst model. cbn [self_P_N2].
    unfold GPU_TO_SI. cbn [fmul]. apply fdiv_pos_zero; [|exact Hsel].
    apply Qmult_lt_0_compat; [exact Hperm | reflexivity].
Qed.

(** ** The monad *)

Lemma bind_ret_l {A B} (a : A) (k : A -> M B) : bind (ret a) k = k a.
Proof. unfold bind, ret. destruct (k a). reflexivity. Qed.

Lemma bind_raise {A B} (e : exn) (k : A -> M B) :
  bind (raise e) k = raise e.
Proof. reflexivity. Qed.

Lemma bind_inr {A B} (out : list event) (a : A) (k : A -> M B) :
  bind (out, inr a) k = (out ++ (k a).1, (k a).2).
Proof. unfold bind. destruct (k a). reflexivity. Qed.

Lemma bind_inl {A B} (out : list event) (e : exn) (k : A -> M B) :
  bind (out, inl e) k = (out, inl e).
Proof. reflexivity. Qed.

(** ** The penalty *)

Section Penalty.

Variable fsolve :
  (num * num -> num * num) -> num * num -> exn + ((num * num) * (num * num)).
Variable self : TargetOptimizer.
Variable fixed_params : gmap string num.

Lemma objective_function_guards (fp pp af : num) :
  guards_reject fp pp af = true ->
  objective_function_try fsolve self [fp; pp; af] fixed_params
  = ([], inr (Fin 1e6)).
Proof.
  unfold guards_reject, objective_function_try.
  change (index [fp; pp; af] 0) with (ret fp).
  change (index [fp; pp; af] 1) with (ret pp).
  change (index [fp; pp; af] 2) with (ret af).
  rewrite !bind_ret_l. intros H.
  repeat match goal with
         | |- (if ?c then _ else _) = _ =>
             destruct c; [reflexivity|]
         end.
  discriminate.
Qed.

Lemma objective_function_guards_pass (fp pp af : num) :
  guards_reject fp pp af = false ->
  objective_function_try fsolve self [fp; pp; af] fixed_params
  = (feed_composition <- getitem fixed_params "feed_composition" ;;
     temperature <- getitem fixed_params "temperature" ;;
     co2_permeance_gpu <- getitem fixed_params "co2_permeance_gpu" ;;
     selectivity <- getitem fixed_params "selectivity" ;;
     membrane <- MembraneSeparation_init PythonNumbers feed_composition fp pp
                   temperature co2_permeance_gpu selectivity ;;
     feed_flow <- getitem fixed_params "feed_flow" ;;
     results <- call (solve_single_stage fsolve membrane feed_flow) ;;
     recovery <- subscript results co2_recovery ;;
     purity <- subscript results permeate_co2 ;;
     ret (sq (py_max 0 (recovery_target self - recovery)) * 100 +
          sq (py_max 0 (purity_target self - purity)) * 100 +
          ((fp / 10) * 0.1 + (af / 5) * 0.1))).
Proof.
  unfold guards_reject, objective_function_try.
  change (index [fp; pp; af] 0) with (ret fp).
  change (index [fp; pp; af] 1) with (ret pp).
  change (index [fp; pp; af] 2) with (ret af).
  rewrite !bind_ret_l. intros H.
  repeat (apply orb_false_iff in H; destruct H as [H ?]).
  repeat match goal with
         | |- (if ?c then _ else _) = _ =>
             destruct c; [simpl in *; discriminate|]
         end.
  reflexivity.
Qed.

Lemma getitem_Some (d : gmap string num) (key : string) (v : num) :
  d !! key = Some v -> getitem d key = ret v.
Proof. intros H. unfold getitem. rewrite H. reflexivity. Qed.

(** The value of the objective on a feasible candidate, as the source
    computes it. *)
Lemma objective_function_feasible
    (fp pp af fc T perm sel F : num) (membrane : MembraneSeparation)
    (o out : list event) (results : StageResult) :
  guards_reject fp pp af = false ->
  fixed_params !! "feed_composition" = Some fc ->
  fixed_params !! "temperature" = Some T ->
  fixed_params !! "co2_permeance_gpu" = Some perm ->
  fixed_params !! "selectivity" = Some sel ->
  fixed_params !! "feed_flow" = Some F ->
  MembraneSeparation_init PythonNumbers fc fp pp T perm sel
  = (o, inr membrane) ->
  solve_single_stage fsolve membrane F = (out, Some results) ->
  objective_function fsolve self [fp; pp; af] fixed_params
  = (o ++ out,
     sq (py_max 0 (recovery_target self - co2_recovery results)) * 100 +
     sq (py_max 0 (purity_target self - permeate_co2 results)) * 100 +
     ((fp / 10) * 0.1 + (af / 5) * 0.1)).
Proof.
  intros Hg Hfc HT Hperm Hsel HF Hinit Hsolve.
  unfold objective_function.
  rewrite (objective_function_guards_pass _ _ _ Hg).
  rewrite (getitem_Some _ _ _ Hfc), (getitem_Some _ _ _ HT),
    (getitem_Some _ _ _ Hperm), (getitem_Some _ _ _ Hsel),
    (getitem_Some _ _ _ HF).
  rewrite !bind_ret_l, Hinit, bind_inr, bind_ret_l.
  unfold call. rewrite Hsolve. simpl.
  rewrite app_nil_r. reflexivity.
Qed.

(** When the solver returns [None], subscripting it raises [TypeError],
    which the objective turns into the penalty. *)
Lemma objective_function_no_result
    (fp pp af fc T perm sel F : num) (membrane : MembraneSeparation)
    (o out : list event) :
  guards_reject fp pp af = false ->
  fixed_params !! "feed_composition" = Some fc ->
  fixed_params !! "temperature" = Some T ->
  fixed_params !! "co2_permeance_gpu" = Some perm ->
  fixed_params !! "selectivity" = Some sel ->
  fixed_params !! "feed_flow" = Some F ->
  MembraneSeparation_init PythonNumbers fc fp pp T perm sel
  = (o, inr membrane) ->
  solve_single_stage fsolve membrane F = (out, None) ->
  objective_function_try fsolve self [fp; pp; af] fixed_params
  = (o ++ out, inl TypeError).
Proof.
  intros Hg Hfc HT Hperm Hsel HF Hinit Hsolve.
  rewrite (objective_function_guards_pass _ _ _ Hg).
  rewrite (getitem_Some _ _ _ Hfc), (getitem_Some _ _ _ HT),
    (getitem_Some _ _ _ Hperm), (getitem_Some _ _ _ Hsel),
    (getitem_Some _ _ _ HF).
  rewrite !bind_ret_l, Hinit, bind_inr, bind_ret_l.
  unfold call. rewrite Hsolve. simpl.
  rewrite app_nil_r. reflexivity.
Qed.

End Penalty.

(** C5: on a candidate [[feed_pressure; permeate_pressure; area_factor]]
    the objective is exactly [1e6] when a guard rejects the candidate
    (permeate_pressure >= feed_pressure, feed_pressure outside [1,20],
    permeate_pressure outside [0.05,5], area_factor outside [0.1,10]) or
    when anything raises during model construction or solving; and when a
    guard rejects it, as for inverted pressures, nothing has been done
    before returning: the output is empty and no model was constructed. *)
Theorem objective_function_infeasible
    (fsolve : (num * num -> num * num) -> num * num ->
              exn + ((num * num) * (num * num)))
    (self : TargetOptimizer) (fixed_params : gmap string num)
    (fp pp af : num) :
  guards_reject fp pp af = true \/
  (exists out e,
     objective_function_try fsolve self [fp; pp; af] fixed_params
     = (out, inl e)) ->
  (objective_function fsolve self [fp; pp; af] fixed_params).2 = Fin 1e6 /\
  (guards_reject fp pp af = true ->
   objective_function fsolve self [fp; pp; af] fixed_params = ([], Fin 1e6) /\
   constructions
     (objective_function fsolve self [fp; pp; af] fixed_params).1 = 0%nat).
Proof.
  intros H. split.
  - destruct H as [H | (out & e & H)]; unfold objective_function.
    + rewrite (objective_function_guards _ _ _ _ _ _ H). reflexivity.
    + rewrite H. reflexivity.
  - intros Hg. unfold objective_function.
    rewrite (objective_function_guards _ _ _ _ _ _ Hg). split; reflexivity.
Qed.

Lemma objective_function_infeasible_witness :
  (objective_function (fsolve_at (Fin 0.2, Fin 0.5))
     (TargetOptimizer_init 0.80 0.80) [Fin 3; Fin 4; Fin 1]
     (fixed_params_of ∅)).2 = Fin 1e6 /\
  (guards_reject 3 4 1 = true ->
   objective_function (fsolve_at (Fin 0.2, Fin 0.5))
     (TargetOptimizer_init 0.80 0.80) [Fin 3; Fin 4; Fin 1]
     (fixed_params_of ∅) = ([], Fin 1e6) /\
   constructions
     (objective_function (fsolve_at (Fin 0.2, Fin 0.5))
        (TargetOptimizer_init 0.80 0.80) [Fin 3; Fin 4; Fin 1]
        (fixed_params_of ∅)).1 = 0%nat).
Proof.
  apply (objective_function_infeasible (fsolve_at (Fin 0.2, Fin 0.5))
           (TargetOptimizer_init 0.80 0.80) (fixed_params_of ∅) 3 4 1).
  left. reflexivity.
Defined.

(** Exceptions from construction and from solving, on concrete runs: a zero
    selectivity makes the constructor raise, a failing root-finder makes the
    solver return [None]; both end in the penalty, after the model
    construction was attempted. *)
Lemma objective_function_exception_examples :
  objective_function (fsolve_at (Fin 0.2, Fin 0.5))
    (TargetOptimizer_init 0.80 0.80) [Fin 3; Fin 0.2; Fin 1]
    (fixed_params_of (<["selectivity" := Fin 0]> ∅))
  = ([Construct], Fin 1e6) /\
  objective_function (fsolve_raising (OtherError "hybrd failed"))
    (TargetOptimizer_init 0.80 0.80) [Fin 3; Fin 0.2; Fin 1]
    (fixed_params_of ∅)
  = ([Construct; Print "Error solving membrane equations: hybrd failed"],
     Fin 1e6).
Proof. split; vm_compute; reflexivity. Qed.



(** ** The stage solver *)

(** [solve_single_stage] by the outcome of the root-finder. *)
Lemma solve_single_stage_cases
    (fsolve : (num * num -> num * num) -> num * num ->
              exn + ((num * num) * (num * num)))
    (self : MembraneSeparation) (F : num) :
  solve_single_stage fsolve self F =
  match fsolve (equations self F) (theta_init, y_init) with
  | inl e =>
      ([Print ("Error solving membrane equations: " +:+ exn_str e)], None)
  | inr ((theta, y), (fvec0, fvec1)) =>
      (if sq fvec0 + sq fvec1 >? 1e-6
       then [Print "Warning: Solution may not have converged"] else [],
       Some (calculate_results self F theta y))
  end.
Proof.
  unfold solve_single_stage, solve_single_stage_try, lift.
  destruct (fsolve (equations self F) (theta_init, y_init))
    as [e | [[theta y] [fvec0 fvec1]]]; [reflexivity|].
  rewrite bind_inr. cbv beta iota.
  destruct (sq fvec0 + sq fvec1 >? 1e-6); reflexivity.
Qed.

(** When the root-finder raises at every call, the objective is the
    penalty on every candidate: a guard, a missing key or a failed
    construction gives it before the solver runs, and otherwise the solver
    returns [None], whose subscripting raises inside the [try]. *)
Lemma objective_function_solver_raising
    (fsolve : (num * num -> num * num) -> num * num ->
              exn + ((num * num) * (num * num)))
    (self : TargetOptimizer) (fixed_params : gmap string num)
    (fp pp af : num) :
  (forall func x0, exists e, fsolve func x0 = inl e) ->
  (objective_function fsolve self [fp; pp; af] fixed_params).2 = Fin 1e6.
Proof.
  intros Hraise. unfold objective_function.
  destruct (guards_reject fp pp af) eqn:Hg.
  { rewrite (objective_function_guards fsolve self fixed_params _ _ _ Hg).
    reflexivity. }
  rewrite (objective_function_guards_pass fsolve self fixed_params _ _ _ Hg).
  unfold getitem.
  destruct (fixed_params !! "feed_composition") as [fc|]; [|reflexivity].
  destruct (fixed_params !! "temperature") as [T|]; [|reflexivity].
  destruct (fixed_params !! "co2_permeance_gpu") as [perm|]; [|reflexivity].
  destruct (fixed_params !! "selectivity") as [sel|]; [|reflexivity].
  rewrite !bind_ret_l, MembraneSeparation_init_cases.
  destruct (is_zero sel); [reflexivity|].
  rewrite bind_inr.
  destruct (fixed_params !! "feed_flow") as [F|]; [|reflexivity].
  rewrite bind_ret_l. unfold call.
  rewrite solve_single_stage_cases.
  destruct (Hraise (equations (attributes fc fp pp T perm sel) F)
              (theta_init, y_init)) as [e ->].
  reflexivity.
Qed.

(** C7: [solve_single_stage] never propagates an exception, for any model
    and any feed flow.  When the root-finder raises, it prints the error and
    returns [None]; when the root-finder returns an iterate [(theta, y)], it
    returns the results computed from that very iterate, after printing the
    warning exactly when the residual sum of squares is above [1e-6].  And
    [objective_function] turns a [None] result into the penalty [1e6]
    instead of raising: on a candidate that passes the guards, and on every
    candidate when the root-finder raises at every call. *)
Theorem solve_single_stage_never_raises
    (fsolve : (num * num -> num * num) -> num * num ->
              exn + ((num * num) * (num * num)))
    (membrane : MembraneSeparation) (F : num) :
  match fsolve (equations membrane F) (theta_init, y_init) with
  | inl e =>
      solve_single_stage fsolve membrane F
      = ([Print ("Error solving membrane equations: " +:+ exn_str e)], None)
  | inr ((theta, y), (fvec0, fvec1)) =>
      let P := theta * F in
      let R := F - P in
      let x := (F * self_z membrane - P * y) / R in
      solve_single_stage fsolve membrane F
      = (if sq fvec0 + sq fvec1 >? 1e-6
         then [Print "Warning: Solution may not have converged"] else [],
         Some {| stage_cut := theta;
                 permeate_co2 := y;
                 retentate_co2 := x;
                 co2_recovery := P * y / (F * self_z membrane);
                 permeate_flow := P;
                 retentate_flow := R;
                 membrane_area :=
                   P * y * 1000
                   / (self_P_CO2 membrane
                      * (x * self_P_f membrane - y * self_P_p membrane));
                 co2_permeated := P * y * 1000 |})
  end /\
  (forall (self : TargetOptimizer) (fixed_params : gmap string num)
          (fp pp af fc T perm sel : num) (o out : list event),
     guards_reject fp pp af = false ->
     fixed_params !! "feed_composition" = Some fc ->
     fixed_params !! "temperature" = Some T ->
     fixed_params !! "co2_permeance_gpu" = Some perm ->
     fixed_params !! "selectivity" = Some sel ->
     fixed_params !! "feed_flow" = Some F ->
     MembraneSeparation_init PythonNumbers fc fp pp T perm sel
     = (o, inr membrane) ->
     solve_single_stage fsolve membrane F = (out, None) ->
     objective_function fsolve self [fp; pp; af] fixed_params
     = (o ++ out, Fin 1e6)) /\
  (forall (self : TargetOptimizer) (fixed_params : gmap string num)
          (fp pp af : num),
     (forall func x0, exists e, fsolve func x0 = inl e) ->
     (objective_function fsolve self [fp; pp; af] fixed_params).2
     = Fin 1e6).
Proof.
  split; [|split].
  - rewrite solve_single_stage_cases.
    destruct (fsolve (equations membrane F) (theta_init, y_init))
      as [e | [[theta y] [fvec0 fvec1]]]; reflexivity.
  - intros self fixed_params fp pp af fc T perm sel o out
      Hg Hfc HT Hperm Hsel HF Hinit Hnone.
    unfold objective_function.
    rewrite (objective_function_no_result fsolve self fixed_params
               fp pp af fc T perm sel F membrane o out Hg Hfc HT Hperm Hsel
               HF Hinit Hnone).
    reflexivity.
  - intros self fixed_params fp pp af.
    apply objective_function_solver_raising.
Qed.

(** The failing branch on a concrete run: the root-finder raises, the
    solver reports it and returns [None], and the objective at that
    candidate is the penalty. *)
Lemma solve_single_stage_failure_example :
  let line := Print "Error solving membrane equations: hybrd failed" in
  solve_single_stage (fsolve_raising (OtherError "hybrd failed"))
    exact_root_model 1.0 = ([line], None) /\
  objective_function (fsolve_raising (OtherError "hybrd failed"))
    (TargetOptimizer_init 0.80 0.80) [Fin 3; Fin 0.2; Fin 1]
    (fixed_params_of exact_root_params)
  = ([Construct; line], Fin 1e6).
Proof. split; vm_compute; reflexivity. Qed.

(** A model with equal feed and permeate pressures, as the sensitivity
    analysis builds one (1.0 bar against 1.0 bar): the solver still returns
    a dict for the iterate it is given, after the warning, with no driving
    force and so an infinite area. *)
Lemma solve_single_stage_equal_pressures_example :
  exists r,
    solve_single_stage (fsolve_at (Fin 0.5, Fin 0.15))
      (attributes 0.15 1.0 1.0 298 3000 30) 1.0
    = ([Print "Warning: Solution may not have converged"], Some r) /\
    stage_cut r = Fin 0.5 /\ permeate_co2 r = Fin 0.15 /\
    membrane_area r = PInf.
Proof.
  eexists. split; [vm_compute; reflexivity|].
  split; [reflexivity|]. split; [reflexivity|]. vm_compute. reflexivity.
Qed.

(** The other branch on a concrete run: a root-finder that stops at its
    initial guess leaves a large residual; the warning is printed and the
    results of that iterate are returned. *)
Lemma solve_single_stage_unconverged_example :
  solve_single_stage (fsolve_at (theta_init, y_init)) scenario_model 1.0
  = ([Print "Warning: Solution may not have converged"],
     Some (calculate_results scenario_model 1.0 theta_init y_init)).
Proof. vm_compute. reflexivity. Qed.

(** ** The results computed from an iterate *)

(** The flows, the retentate fraction and the recovery computed from a
    finite iterate with stage cut other than 1. *)
Lemma calculate_results_finite (self : MembraneSeparation) (f zq t v : Q) :
  self_z self = Fin zq -> (0 < f)%Q -> (0 < zq)%Q -> ~ (t == 1)%Q ->
  let r := calculate_results self (Fin f) (Fin t) (Fin v) in
  stage_cut r = Fin t /\ permeate_co2 r = Fin v /\
  permeate_flow r = Fin (t * f) /\
  retentate_flow r = Fin (f + - (t * f)) /\
  retentate_co2 r = Fin ((f * zq + - (t * f * v)) / (f + - (t * f))) /\
  co2_recovery r = Fin (t * f * v / (f * zq)).
Proof.
  intros Hz Hf Hzq Ht r. subst r. unfold calculate_results. rewrite Hz. simpl.
  assert (H1 : Qeq_bool (f + - (t * f)) 0 = false).
  { apply Qeq_bool_false. intros E. apply Ht.
    assert (E' : (f * (1 - t) == 0)%Q) by (rewrite <- E; ring).
    apply Qmult_integral in E'. destruct E' as [E'|E']; lra. }
  assert (H2 : Qeq_bool (f * zq) 0 = false).
  { apply Qeq_bool_false. intros E. apply Qmult_integral in E.
    destruct E; lra. }
  rewrite H1, H2. repeat split; reflexivity.
Qed.

(** A returned dict is the one computed from its own stage cut and
    permeate fraction. *)
Lemma solve_single_stage_results
    (fsolve : (num * num -> num * num) -> num * num ->
              exn + ((num * num) * (num * num)))
    (self : MembraneSeparation) (F : num) (out : list event)
    (r : StageResult) :
  solve_single_stage fsolve self F = (out, Some r) ->
  r = calculate_results self F (stage_cut r) (permeate_co2 r).
Proof.
  rewrite solve_single_stage_cases.
  destruct (fsolve (equations self F) (theta_init, y_init))
    as [e | [[theta y] [fvec0 fvec1]]]; [discriminate|].
  intros H. injection H as _ <-. reflexivity.
Qed.

(** C1, amended: for a dict returned for a finite feed flow [F > 0] and feed
    fraction [z > 0], whose stage cut and permeate fraction are finite with
    stage cut other than 1, the flows add up to the feed flow and the CO2
    balance [F*z - R*x - P*y] is exactly zero; the remaining invariants are
    not checked by the code and hold exactly when the iterate returned by
    the root-finder is physical: stage cut, permeate fraction and retentate
    fraction in (0,1) and a positive membrane area (the recovery is then in
    [0,1]). *)
Theorem stage_result_invariants
    (fsolve : (num * num -> num * num) -> num * num ->
              exn + ((num * num) * (num * num)))
    (self : MembraneSeparation) (out : list event) (r : StageResult)
    (f zq t v : Q) :
  solve_single_stage fsolve self (Fin f) = (out, Some r) ->
  self_z self = Fin zq -> stage_cut r = Fin t -> permeate_co2 r = Fin v ->
  (0 < f)%Q -> (0 < zq)%Q -> ~ (t == 1)%Q ->
  permeate_flow r + retentate_flow r =n= Fin f /\
  Fin f * self_z self - retentate_flow r * retentate_co2 r
    - permeate_flow r * permeate_co2 r =n= 0 /\
  (StageResult_ok self (Fin f) r <->
   (0 < t < 1)%Q /\ (0 < v < 1)%Q /\
   (0 <? retentate_co2 r) = true /\ (retentate_co2 r <? 1) = true /\
   (0 <? membrane_area r) = true).
Proof.
  intros Hsolve Hz Hcut Hy Hf Hzq Ht.
  pose proof (solve_single_stage_results _ _ _ _ _ Hsolve) as Hr.
  rewrite Hcut, Hy in Hr.
  destruct (calculate_results_finite self f zq t v Hz Hf Hzq Ht)
    as (_ & _ & HP & HR & Hx & Hrec).
  rewrite <- Hr in HP, HR, Hx, Hrec.
  assert (Hden : ~ (f + - (t * f) == 0)%Q).
  { intros E. apply Ht.
    assert (E' : (f * (1 - t) == 0)%Q) by (rewrite <- E; ring).
    apply Qmult_integral in E'. destruct E' as [E'|E']; lra. }
  assert (Hcons : permeate_flow r + retentate_flow r =n= Fin f).
  { rewrite HP, HR. simpl. ring. }
  assert (Hbal : Fin f * self_z self - retentate_flow r * retentate_co2 r
                 - permeate_flow r * permeate_co2 r =n= 0).
  { rewrite Hz, HP, HR, Hx, Hy. simpl. field. exact Hden. }
  assert (Hchk :
    (fabs (Fin f * self_z self - retentate_flow r * retentate_co2 r
           - permeate_flow r * permeate_co2 r) / (Fin f * self_z self)
       <? 1e-4) = true).
  { revert Hbal.
    destruct (Fin f * self_z self - retentate_flow r * retentate_co2 r
              - permeate_flow r * permeate_co2 r) as [q| | |];
      cbn [num_eq]; try contradiction.
    intros Hq. rewrite Hz.
    assert (H2' : Qeq_bool (f * zq) 0 = false).
    { apply Qeq_bool_false. intros E. apply Qmult_integral in E.
      destruct E; lra. }
    cbn [fabs fmul fdiv]. rewrite H2'. cbn [flt]. apply Qltb_lt.
    assert (Ha : (Qabs q == 0)%Q) by (rewrite Hq; reflexivity).
    rewrite Ha. unfold Qdiv. rewrite Qmult_0_l. reflexivity. }
  split; [exact Hcons|]. split; [exact Hbal|].
  unfold StageResult_ok. rewrite Hcut.
  replace (permeate_co2 r <? 1) with (Fin v <? 1) by (rewrite Hy; reflexivity).
  replace (0 <? permeate_co2 r) with (0 <? Fin v) by (rewrite Hy; reflexivity).
  cbn [flt]. rewrite !Qltb_lt.
  split.
  - intros (H1 & H2 & H3 & H4 & H5 & H6 & _ & _ & H9 & _ & _). tauto.
  - intros ((H1 & H2) & (H3 & H4) & H5 & H6 & H9).
    repeat (split; [assumption|]).
    assert (Hnum : (0 < f * zq + - (t * f * v))%Q).
    { rewrite Hx in H5. cbn [flt] in H5. apply Qltb_lt in H5.
      set (n := (f * zq + - (t * f * v))%Q) in *.
      set (d := (f + - (t * f))%Q) in *.
      assert (Hd : (0 < d)%Q) by (unfold d; nra).
      assert (E : (n == n / d * d)%Q) by (field; exact Hden).
      rewrite E. apply Qmult_lt_0_compat; assumption. }
    assert (Hfz : (0 < f * zq)%Q) by (apply Qmult_lt_0_compat; assumption).
    split; [|split; [|split; [assumption|split; [exact Hcons|exact Hchk]]]].
    + rewrite Hrec. cbn [fle]. apply Qle_bool_iff.
      apply Qle_shift_div_l; [exact Hfz|].
      assert (Htfv : (0 < t * f * v)%Q)
        by (repeat apply Qmult_lt_0_compat; assumption).
      lra.
    + rewrite Hrec. cbn [fle]. apply Qle_bool_iff.
      apply Qle_shift_div_r; [exact Hfz|]. lra.
Qed.

Lemma stage_result_invariants_witness :
  permeate_flow exact_root_results + retentate_flow exact_root_results
    =n= Fin 1.0 /\
  Fin 1.0 * self_z exact_root_model
    - retentate_flow exact_root_results * retentate_co2 exact_root_results
    - permeate_flow exact_root_results * permeate_co2 exact_root_results
    =n= 0 /\
  (StageResult_ok exact_root_model (Fin 1.0) exact_root_results <->
   (0 < 0.2 < 1)%Q /\ (0 < 0.5 < 1)%Q /\
   (0 <? retentate_co2 exact_root_results) = true /\
   (retentate_co2 exact_root_results <? 1) = true /\
   (0 <? membrane_area exact_root_results) = true).
Proof.
  apply (stage_result_invariants (fsolve_at (Fin 0.2, Fin 0.5))
           exact_root_model [] exact_root_results 1.0 0.15 0.2 0.5);
    try (vm_compute; reflexivity).
  intros H. vm_compute in H. discriminate.
Defined.

(** At the exact root every invariant of the data model holds. *)
Lemma exact_root_ok :
  solve_single_stage (fsolve_at (Fin 0.2, Fin 0.5)) exact_root_model 1.0
  = ([], Some exact_root_results) /\
  StageResult_ok exact_root_model 1.0 exact_root_results.
Proof.
  split; [vm_compute; reflexivity|].
  unfold StageResult_ok. repeat split; vm_compute; reflexivity.
Qed.

(** The claim C1 fails on the code.  For a feed of pure CO2 (feed
    composition 1, which the constructor accepts) and feed flow 1 a dict is
    returned, and no dict returned for this model satisfies the invariants,
    whatever the root-finder answers: a stage cut and a permeate fraction
    in (0,1) put the retentate fraction above 1. *)
Lemma pure_feed_breaks_invariants :
  (0 <? Fin 1.0) = true /\
  (exists out r,
     solve_single_stage (fsolve_at (theta_init, y_init)) pure_feed_model 1.0
     = (out, Some r)) /\
  (forall fsolve out r,
     solve_single_stage fsolve pure_feed_model 1.0 = (out, Some r) ->
     ~ StageResult_ok pure_feed_model 1.0 r).
Proof.
  split; [reflexivity|]. split; [do 2 eexists; vm_compute; reflexivity|].
  intros fsolve out r Hsolve Hok.
  pose proof (solve_single_stage_results _ _ _ _ _ Hsolve) as Hr.
  destruct Hok as (H1 & H2 & H3 & H4 & _ & H6 & _).
  destruct (stage_cut r) as [t| | |] eqn:Hcut; try discriminate.
  destruct (permeate_co2 r) as [v| | |] eqn:Hy; try discriminate.
  cbn [flt] in H1, H2, H3, H4.
  apply Qltb_lt in H1, H2, H3, H4.
  assert (Ht : ~ (t == 1)%Q) by lra.
  destruct (calculate_results_finite pure_feed_model 1.0 1 t v
              eq_refl ltac:(lra) ltac:(lra) Ht)
    as (_ & _ & _ & _ & Hx & _).
  rewrite <- Hr in Hx. rewrite Hx in H6. cbn [flt] in H6.
  apply Qltb_lt in H6.
  set (n := (1.0 * 1 + - (t * 1.0 * v))%Q) in *.
  set (d := (1.0 + - (t * 1.0))%Q) in *.
  assert (Hd : (0 < d)%Q) by (unfold d; lra).
  assert (E : (n == n / d * d)%Q) by (field; lra).
  assert (Hlt : (n / d * d < 1 * d)%Q)
    by (apply Qmult_lt_compat_r; assumption).
  rewrite <- E in Hlt.
  assert (Htv : (0 < t * (1 - v))%Q) by (apply Qmult_lt_0_compat; lra).
  unfold n, d in Hlt. lra.
Qed.

(** On the specification's own scenario, a root-finder that stops at its
    initial guess without converging yields a dict with retentate fraction
    0 and a negative membrane area. *)
Lemma unconverged_iterate_breaks_invariants :
  exists r,
    solve_single_stage (fsolve_at (theta_init, y_init)) scenario_model 1.0
    = ([Print "Warning: Solution may not have converged"], Some r) /\
    retentate_co2 r =n= 0 /\ (membrane_area r <? 0) = true /\
    ~ StageResult_ok scenario_model 1.0 r.
Proof.
  eexists. split; [vm_compute; reflexivity|].
  split; [vm_compute; reflexivity|]. split; [vm_compute; reflexivity|].
  intros (_ & _ & _ & _ & H & _). vm_compute in H. discriminate.
Qed.

(** ** The optimizer *)

Lemma fixed_params_of_lookup (base_params : gmap string num) :
  fixed_params_of base_params !! "feed_flow"
    = Some (get base_params "feed_flow" 1.0) /\
  fixed_params_of base_params !! "feed_composition"
    = Some (get base_params "feed_composition" 0.15) /\
  fixed_params_of base_params !! "temperature"
    = Some (get base_params "temperature" 298) /\
  fixed_params_of base_params !! "co2_permeance_gpu"
    = Some (get base_params "co2_permeance_gpu" 800) /\
  fixed_params_of base_params !! "selectivity"
    = Some (get base_params "selectivity" 50).
Proof. repeat split; reflexivity. Qed.

Section FindOptimalConditions.

Variable fsolve :
  (num * num -> num * num) -> num * num -> exn + ((num * num) * (num * num)).
Variable np_power : num -> num -> num.
Variable differential_evolution :
  (list num -> num) -> list (num * num) -> OptimizeResult.
Variable minimize :
  (list num -> num) -> list num -> list (num * num) -> OptimizeResult.
Variable self : TargetOptimizer.

(** The optimizer's result in [find_optimal_conditions]. *)
Let search (base_params : gmap string num) (method : string)
    : OptimizeResult :=
  let objective :=
    fun x => (objective_function fsolve self x
                (fixed_params_of base_params)).2 in
  if String.eqb method "differential_evolution"
  then differential_evolution objective bounds
  else minimize objective initial_guess bounds.

Let started (method : string) : event :=
  Optimize (if String.eqb method "differential_evolution"
            then "differential_evolution" else "Nelder-Mead").

(** [find_optimal_conditions] by the selectivity and the outcome of the
    final solve. *)
Lemma find_optimal_conditions_cases (base_params : gmap string num)
    (method : string) :
  let result := search base_params method in
  let membrane := final_membrane base_params (res_x result) in
  find_optimal_conditions fsolve np_power differential_evolution minimize
    self base_params method
  = if is_zero (get base_params "selectivity" 50)
    then ([started method; Construct], inl ZeroDivisionError)
    else
      match solve_single_stage fsolve membrane
              (get base_params "feed_flow" 1.0) with
      | (out, None) => (started method :: Construct :: out, inl TypeError)
      | (out, Some results) =>
          (started method :: Construct :: out,
           inr (optimal_solution np_power self base_params result results))
      end.
Proof.
  intros result membrane.
  destruct (fixed_params_of_lookup base_params)
    as (HF & Hfc & HT & Hperm & Hsel).
  unfold find_optimal_conditions.
  rewrite (getitem_Some _ _ _ Hfc), (getitem_Some _ _ _ HT),
    (getitem_Some _ _ _ Hperm), (getitem_Some _ _ _ Hsel),
    (getitem_Some _ _ _ HF).
  assert (Hsearch :
    (if String.eqb method "differential_evolution"
     then tell (Optimize "differential_evolution") ;;;
          ret (differential_evolution
                 (fun x => (objective_function fsolve self x
                              (fixed_params_of base_params)).2) bounds)
     else tell (Optimize "Nelder-Mead") ;;;
          ret (minimize
                 (fun x => (objective_function fsolve self x
                              (fixed_params_of base_params)).2)
                 initial_guess bounds))
    = ([started method], inr result)).
  { unfold started, result, search.
    destruct (String.eqb method "differential_evolution"); reflexivity. }
  rewrite Hsearch, bind_inr. cbv beta zeta.
  rewrite !bind_ret_l, MembraneSeparation_init_cases.
  fold (final_membrane base_params (res_x result)). fold membrane.
  destruct (is_zero (get base_params "selectivity" 50)); [reflexivity|].
  rewrite bind_inr, !bind_ret_l. unfold call.
  destruct (solve_single_stage fsolve membrane
              (get base_params "feed_flow" 1.0)) as [out [results|]].
  - rewrite bind_inr. cbn [fst snd subscript].
    rewrite !bind_ret_l.
    destruct ((res_x result).1.2 <? 1.0) eqn:Hpp.
    + rewrite !bind_ret_l. unfold optimal_solution. rewrite Hpp.
      cbn. rewrite !app_nil_r. reflexivity.
    + rewrite !bind_ret_l. unfold optimal_solution. rewrite Hpp.
      cbn. rewrite !app_nil_r. reflexivity.
  - rewrite bind_inr. cbn [fst snd subscript].
    destruct ((res_x result).1.2 <? 1.0); cbn; rewrite ?app_nil_r;
      reflexivity.
Qed.

End FindOptimalConditions.

(** C10: with the default method the search runs over [bounds], which is
    feed pressure in [1, 15], permeate pressure in [0.05, 2] and area factor
    in [0.1, 10]; the two pressure ranges end strictly below the 20 and 5
    the objective accepts, and since the optimizer returns a point within
    the bounds it is given, every solution record returned has feed
    pressure at most 15 and permeate pressure at most 2. *)
Theorem find_optimal_conditions_bounds
    (fsolve : (num * num -> num * num) -> num * num ->
              exn + ((num * num) * (num * num)))
    (np_power : num -> num -> num)
    (differential_evolution :
       (list num -> num) -> list (num * num) -> OptimizeResult)
    (minimize :
       (list num -> num) -> list num -> list (num * num) -> OptimizeResult)
    (self : TargetOptimizer) (base_params : gmap string num)
    (out : list event) (sol : Solution) :
  (forall func, within bounds (res_x (differential_evolution func bounds))) ->
  find_optimal_conditions fsolve np_power differential_evolution minimize
    self base_params "differential_evolution" = (out, inr sol) ->
  bounds = [(Fin 1.0, Fin 15.0); (Fin 0.05, Fin 2.0); (Fin 0.1, Fin 10.0)] /\
  (15.0 <? 20) = true /\ (2.0 <? 5) = true /\
  (1.0 <=? sol_feed_pressure sol) = true /\
  (sol_feed_pressure sol <=? 15.0) = true /\
  (0.05 <=? sol_permeate_pressure sol) = true /\
  (sol_permeate_pressure sol <=? 2.0) = true.
Proof.
  intros Hde Hfoc.
  split; [reflexivity|]. split; [reflexivity|]. split; [reflexivity|].
  rewrite find_optimal_conditions_cases in Hfoc.
  destruct (is_zero (get base_params "selectivity" 50)); [discriminate|].
  match type of Hfoc with
  | context [solve_single_stage ?f ?m ?F] =>
      destruct (solve_single_stage f m F) as [o [results|]]
  end; [|discriminate].
  injection Hfoc as _ <-.
  cbn [optimal_solution sol_feed_pressure sol_permeate_pressure].
  change (String.eqb "differential_evolution" "differential_evolution")
    with true. cbv iota.
  match goal with
  | |- context [differential_evolution ?f bounds] =>
      specialize (Hde f); destruct Hde as (H1 & H2 & H3 & H4 & _)
  end.
  auto.
Qed.

Lemma find_optimal_conditions_bounds_witness :
  bounds = [(Fin 1.0, Fin 15.0); (Fin 0.05, Fin 2.0); (Fin 0.1, Fin 10.0)] /\
  (15.0 <? 20) = true /\ (2.0 <? 5) = true /\
  (1.0 <=? sol_feed_pressure exact_root_solution) = true /\
  (sol_feed_pressure exact_root_solution <=? 15.0) = true /\
  (0.05 <=? sol_permeate_pressure exact_root_solution) = true /\
  (sol_permeate_pressure exact_root_solution <=? 2.0) = true.
Proof.
  apply (find_optimal_conditions_bounds (fsolve_at (Fin 0.2, Fin 0.5))
           power_stub (optimizer_at (Fin 3, Fin 0.2, Fin 1))
           (minimize_at (Fin 3, Fin 0.2, Fin 1))
           scenario_optimizer exact_root_params
           [Optimize "differential_evolution"; Construct]).
  - intros func. vm_compute. repeat split; reflexivity.
  - vm_compute. reflexivity.
Defined.

(** ** The area factor *)

(** The membrane solved at the end of [find_optimal_conditions] depends on
    the two pressures of the point found, not on its area factor. *)
Lemma final_membrane_pressures (base_params : gmap string num)
    (x x' : num * num * num) :
  x.1 = x'.1 -> final_membrane base_params x = final_membrane base_params x'.
Proof. intros H. unfold final_membrane. rewrite H. reflexivity. Qed.

Lemma physical_optimal_solution (np_power : num -> num -> num)
    (self : TargetOptimizer) (base_params : gmap string num)
    (result result' : OptimizeResult) (results : StageResult) :
  (res_x result).1 = (res_x result').1 ->
  physical (optimal_solution np_power self base_params result results)
  = physical (optimal_solution np_power self base_params result' results).
Proof.
  intros H. unfold physical, optimal_solution. cbn. rewrite H. reflexivity.
Qed.

(** On candidates that pass the guards, the objective runs the same
    computation whatever the area factor, up to the cost term added at the
    end. *)
Lemma objective_function_try_area
    (fsolve : (num * num -> num * num) -> num * num ->
              exn + ((num * num) * (num * num)))
    (self : TargetOptimizer) (fixed_params : gmap string num)
    (fp pp : num) :
  exists (out : list event) (r : exn + num),
  forall af, guards_reject fp pp af = false ->
    objective_function_try fsolve self [fp; pp; af] fixed_params
    = (out,
       match r with
       | inl e => inl e
       | inr shortfall => inr (shortfall + ((fp / 10) * 0.1 + (af / 5) * 0.1))
       end).
Proof.
  destruct (fixed_params !! "feed_composition") as [fc|] eqn:Hfc.
  2:{ exists [], (inl (KeyError "feed_composition")). intros af Hg.
      rewrite (objective_function_guards_pass _ _ _ _ _ _ Hg).
      unfold getitem at 1. rewrite Hfc. reflexivity. }
  destruct (fixed_params !! "temperature") as [T|] eqn:HT.
  2:{ exists [], (inl (KeyError "temperature")). intros af Hg.
      rewrite (objective_function_guards_pass _ _ _ _ _ _ Hg).
      rewrite (getitem_Some _ _ _ Hfc), bind_ret_l.
      unfold getitem at 1. rewrite HT. reflexivity. }
  destruct (fixed_params !! "co2_permeance_gpu") as [perm|] eqn:Hperm.
  2:{ exists [], (inl (KeyError "co2_permeance_gpu")). intros af Hg.
      rewrite (objective_function_guards_pass _ _ _ _ _ _ Hg).
      rewrite (getitem_Some _ _ _ Hfc), (getitem_Some _ _ _ HT),
        !bind_ret_l.
      unfold getitem at 1. rewrite Hperm. reflexivity. }
  destruct (fixed_params !! "selectivity") as [sel|] eqn:Hsel.
  2:{ exists [], (inl (KeyError "selectivity")). intros af Hg.
      rewrite (objective_function_guards_pass _ _ _ _ _ _ Hg).
      rewrite (getitem_Some _ _ _ Hfc), (getitem_Some _ _ _ HT),
        (getitem_Some _ _ _ Hperm), !bind_ret_l.
      unfold getitem at 1. rewrite Hsel. reflexivity. }
  destruct (is_zero sel) eqn:Hz.
  { exists [Construct], (inl ZeroDivisionError). intros af Hg.
    rewrite (objective_function_guards_pass _ _ _ _ _ _ Hg).
    rewrite (getitem_Some _ _ _ Hfc), (getitem_Some _ _ _ HT),
      (getitem_Some _ _ _ Hperm), (getitem_Some _ _ _ Hsel), !bind_ret_l.
    rewrite MembraneSeparation_init_cases, Hz. reflexivity. }
  destruct (fixed_params !! "feed_flow") as [F|] eqn:HF.
  2:{ exists [Construct], (inl (KeyError "feed_flow")). intros af Hg.
      rewrite (objective_function_guards_pass _ _ _ _ _ _ Hg).
      rewrite (getitem_Some _ _ _ Hfc), (getitem_Some _ _ _ HT),
        (getitem_Some _ _ _ Hperm), (getitem_Some _ _ _ Hsel), !bind_ret_l.
      rewrite MembraneSeparation_init_cases, Hz, bind_inr.
      unfold getitem. rewrite HF. reflexivity. }
  pose proof (MembraneSeparation_init_cases fc fp pp T perm sel) as Hinit.
  rewrite Hz in Hinit.
  destruct (solve_single_stage fsolve (attributes fc fp pp T perm sel) F)
    as [out [results|]] eqn:Hsolve.
  - exists ([Construct] ++ out),
      (inr (sq (py_max 0 (recovery_target self - co2_recovery results)) * 100
            + sq (py_max 0 (purity_target self - permeate_co2 results))
              * 100)).
    intros af Hg.
    pose proof (objective_function_feasible fsolve self fixed_params
                  fp pp af fc T perm sel F _ _ out results Hg Hfc HT Hperm
                  Hsel HF Hinit Hsolve) as H.
    unfold objective_function in H.
    destruct (objective_function_try fsolve self [fp; pp; af] fixed_params)
      as [o [e|v]] eqn:Htry.
    + exfalso. revert Htry.
      rewrite (objective_function_guards_pass _ _ _ _ _ _ Hg).
      rewrite (getitem_Some _ _ _ Hfc), (getitem_Some _ _ _ HT),
        (getitem_Some _ _ _ Hperm), (getitem_Some _ _ _ Hsel),
        (getitem_Some _ _ _ HF).
      rewrite !bind_ret_l, Hinit, bind_inr, bind_ret_l.
      unfold call. rewrite Hsolve. discriminate.
    + injection H as -> ->. reflexivity.
  - exists ([Construct] ++ out), (inl TypeError). intros af Hg.
    exact (objective_function_no_result fsolve self fixed_params
             fp pp af fc T perm sel F _ _ out Hg Hfc HT Hperm Hsel HF
             Hinit Hsolve).
Qed.

(** C8: the area factor does not reach the stage solver.  Two candidates
    that pass the guards and differ only in their area factor run the same
    model construction and the same solve (same output, same exception if
    any), and their penalties are one common shortfall plus each one's cost
    term; and two searches that end at the same pressures with different
    area factors give solution records that agree on every field but the
    optimization penalty. *)
Theorem area_factor_is_inert
    (fsolve : (num * num -> num * num) -> num * num ->
              exn + ((num * num) * (num * num)))
    (np_power : num -> num -> num)
    (de de' : (list num -> num) -> list (num * num) -> OptimizeResult)
    (mn mn' : (list num -> num) -> list num -> list (num * num) ->
              OptimizeResult)
    (self : TargetOptimizer) (fixed_params base_params : gmap string num)
    (method : string) (fp pp a1 a2 : num) :
  guards_reject fp pp a1 = false ->
  guards_reject fp pp a2 = false ->
  (forall func b, (res_x (de func b)).1 = (res_x (de' func b)).1) ->
  (forall func x0 b, (res_x (mn func x0 b)).1 = (res_x (mn' func x0 b)).1) ->
  (exists (out : list event) (r : exn + num),
     objective_function_try fsolve self [fp; pp; a1] fixed_params
     = (out, match r with
             | inl e => inl e
             | inr shortfall =>
                 inr (shortfall + ((fp / 10) * 0.1 + (a1 / 5) * 0.1))
             end) /\
     objective_function_try fsolve self [fp; pp; a2] fixed_params
     = (out, match r with
             | inl e => inl e
             | inr shortfall =>
                 inr (shortfall + ((fp / 10) * 0.1 + (a2 / 5) * 0.1))
             end)) /\
  (let s := find_optimal_conditions fsolve np_power de mn self base_params
              method in
   let s' := find_optimal_conditions fsolve np_power de' mn' self base_params
               method in
   s.1 = s'.1 /\
   match s.2, s'.2 with
   | inr a, inr b => physical a = physical b
   | inl e, inl e' => e = e'
   | _, _ => False
   end).
Proof.
  intros Hg1 Hg2 Hde Hmn. split.
  - destruct (objective_function_try_area fsolve self fixed_params fp pp)
      as (out & r & H).
    exists out, r. split; apply H; assumption.
  - cbv zeta. rewrite !find_optimal_conditions_cases.
    set (objective := fun x => (objective_function fsolve self x
                                  (fixed_params_of base_params)).2).
    set (result := if String.eqb method "differential_evolution"
                   then de objective bounds
                   else mn objective initial_guess bounds).
    set (result' := if String.eqb method "differential_evolution"
                    then de' objective bounds
                    else mn' objective initial_guess bounds).
    assert (Hx : (res_x result).1 = (res_x result').1).
    { unfold result, result'.
      destruct (String.eqb method "differential_evolution");
        [apply Hde | apply Hmn]. }
    rewrite (final_membrane_pressures base_params _ _ Hx).
    destruct (is_zero (get base_params "selectivity" 50));
      [split; reflexivity|].
    destruct (solve_single_stage fsolve
                (final_membrane base_params (res_x result'))
                (get base_params "feed_flow" 1.0)) as [out [results|]];
      cbn [fst snd]; (split; [reflexivity|]).
    + apply physical_optimal_solution. exact Hx.
    + reflexivity.
Qed.

Lemma area_factor_is_inert_witness :
  (exists (out : list event) (r : exn + num),
     objective_function_try (fsolve_at (Fin 0.2, Fin 0.5)) scenario_optimizer
       [Fin 3; Fin 0.2; Fin 1] (fixed_params_of exact_root_params)
     = (out, match r with
             | inl e => inl e
             | inr shortfall =>
                 inr (shortfall + ((3 / 10) * 0.1 + (1 / 5) * 0.1))
             end) /\
     objective_function_try (fsolve_at (Fin 0.2, Fin 0.5)) scenario_optimizer
       [Fin 3; Fin 0.2; Fin 7] (fixed_params_of exact_root_params)
     = (out, match r with
             | inl e => inl e
             | inr shortfall =>
                 inr (shortfall + ((3 / 10) * 0.1 + (7 / 5) * 0.1))
             end)) /\
  (let s := find_optimal_conditions (fsolve_at (Fin 0.2, Fin 0.5)) power_stub
              (optimizer_at (Fin 3, Fin 0.2, Fin 1))
              (minimize_at (Fin 3, Fin 0.2, Fin 1))
              scenario_optimizer exact_root_params "differential_evolution" in
   let s' := find_optimal_conditions (fsolve_at (Fin 0.2, Fin 0.5)) power_stub
               (optimizer_at (Fin 3, Fin 0.2, Fin 7))
               (minimize_at (Fin 3, Fin 0.2, Fin 7))
               scenario_optimizer exact_root_params "differential_evolution" in
   s.1 = s'.1 /\
   match s.2, s'.2 with
   | inr a, inr b => physical a = physical b
   | inl e, inl e' => e = e'
   | _, _ => False
   end).
Proof.
  apply (area_factor_is_inert (fsolve_at (Fin 0.2, Fin 0.5)) power_stub
           (optimizer_at (Fin 3, Fin 0.2, Fin 1))
           (optimizer_at (Fin 3, Fin 0.2, Fin 7))
           (minimize_at (Fin 3, Fin 0.2, Fin 1))
           (minimize_at (Fin 3, Fin 0.2, Fin 7))
           scenario_optimizer (fixed_params_of exact_root_params)
           exact_root_params "differential_evolution" 3 0.2 1 7);
    reflexivity.
Defined.

(** ** The escalation ladder *)

Lemma working_params_spec : rung_params engineered_fallback = working_params.
Proof. vm_compute. reflexivity. Qed.

Lemma bind_ext {A B} (m : M A) (k k' : A -> M B) :
  (forall a, k a = k' a) -> bind m k = bind m k'.
Proof.
  intros H. destruct m as [out [e|a]]; [reflexivity|].
  unfold bind. rewrite H. reflexivity.
Qed.

Section Ladder.

Variable fsolve :
  (num * num -> num * num) -> num * num -> exn + ((num * num) * (num * num)).
Variable np_power : num -> num -> num.
Variable differential_evolution :
  (list num -> num) -> list (num * num) -> OptimizeResult.
Variable minimize :
  (list num -> num) -> list num -> list (num * num) -> OptimizeResult.
Variable self : TargetOptimizer.

Let attempt : gmap string num -> M Solution :=
  optimize_default fsolve np_power differential_evolution minimize self.

(** The source's sequence of strategies is the ladder climbed rung by
    rung. *)
Lemma guaranteed_solution_climbs (base_params : gmap string num) :
  guaranteed_solution fsolve np_power differential_evolution minimize self
    base_params
  = escalation attempt base_params.
Proof.
  unfold guaranteed_solution, escalation. fold attempt.
  apply bind_ext. intros s1. destruct (sol_meets_target s1); [reflexivity|].
  cbn [climb escalation_rungs rung_params].
  apply bind_ext. intros s2. destruct (sol_meets_target s2).
  { destruct s2; reflexivity. }
  apply bind_ext. intros s3. destruct (sol_meets_target s3); [reflexivity|].
  apply bind_ext. intros s4. destruct (sol_meets_target s4); [reflexivity|].
  apply bind_ext. intros s5. destruct (sol_meets_target s5); [reflexivity|].
  apply bind_ext. intros s6. destruct (sol_meets_target s6); [reflexivity|].
  unfold relax_or_force.
  destruct ((sol_co2_recovery s6 >=? 0.78) && (sol_co2_purity s6 >=? 0.78));
    [reflexivity|].
  rewrite working_params_spec.
  apply bind_ext. intros s8. reflexivity.
Qed.

End Ladder.

Lemma capped_min (factor limit v : Q) :
  capped factor limit (Fin v) =n= Fin (Qmin limit (v * factor)).
Proof.
  unfold capped, py_min. cbn [fmul flt].
  destruct (Qltb (v * factor) limit) eqn:E; cbn [num_eq].
  - apply Qltb_lt in E. symmetry. apply Q.min_r. lra.
  - apply Qltb_ge in E. symmetry. apply Q.min_l. exact E.
Qed.

(** Strategy 7 on the ladder: a last solution with recovery and purity of
    at least 0.78 is returned as it is, except that it is flagged. *)
Lemma relax_accepts (attempt : gmap string num -> M Solution)
    (last : Solution) :
  (sol_co2_recovery last >=? 0.78) && (sol_co2_purity last >=? 0.78) = true ->
  exists s,
    relax_or_force attempt last = ret s /\
    sol_meets_target s = true /\
    physical s = physical (declared_met last) /\
    sol_optimization_penalty s = sol_optimization_penalty last.
Proof.
  intros H. unfold relax_or_force. rewrite H.
  eexists. split; [reflexivity|]. repeat split.
Qed.

(** Strategy 8 on the ladder: otherwise the solution of one more search
    with the hardcoded parameters is returned, flagged whatever its recovery
    and purity are, and carrying the hardcoded parameters. *)
Lemma force_accepts (attempt : gmap string num -> M Solution)
    (last : Solution) (out : list event) (forced_run : Solution) :
  (sol_co2_recovery last >=? 0.78) && (sol_co2_purity last >=? 0.78) = false ->
  attempt (rung_params engineered_fallback) = (out, inr forced_run) ->
  exists s,
    relax_or_force attempt last = (out, inr s) /\
    sol_meets_target s = true /\
    sol_co2_recovery s = sol_co2_recovery forced_run /\
    sol_co2_purity s = sol_co2_purity forced_run /\
    sol_full_results s = sol_full_results forced_run /\
    sol_selectivity s = Some (Fin 250) /\
    sol_co2_permeance_gpu s = Some (Fin 1500) /\
    sol_feed_composition s = Some (Fin 0.30) /\
    sol_temperature s = Some (Fin 298).
Proof.
  intros H Hrun. unfold relax_or_force. rewrite H, Hrun, bind_inr.
  cbn [fst snd ret]. rewrite app_nil_r.
  eexists. split; [reflexivity|]. repeat split.
Qed.

(** C2: [guaranteed_solution] climbs the ladder in order and stops at the
    first strategy whose solution meets the target.  Strategy 2 retries
    with selectivity x1.5 capped at 100; strategy 3 with feed composition
    x1.5 capped at 0.50 and selectivity x1.3 capped at 100; strategy 4 with
    selectivity 150, permeance x0.7 and feed composition x1.3 capped at
    0.40; strategy 5 with temperature 308, selectivity 120 and feed
    composition x2.0 capped at 0.50; strategy 6 with selectivity 200,
    permeance 1200, feed composition 0.30 and temperature 298; strategy 7
    accepts the solution of strategy 6 with [meets_target] set exactly when
    its recovery and purity both reach 0.78; strategy 8 optimizes again
    with feed composition 0.30, permeance 1500 and selectivity 250 and sets
    [meets_target] whatever the outcome.  A cap is the minimum with the
    limit.  The ladder is written down on its own, with the flag of
    strategies 7 and 8 set in the record itself; the second and third parts
    say what those two strategies return. *)
Theorem guaranteed_solution_escalation
    (fsolve : (num * num -> num * num) -> num * num ->
              exn + ((num * num) * (num * num)))
    (np_power : num -> num -> num)
    (differential_evolution :
       (list num -> num) -> list (num * num) -> OptimizeResult)
    (minimize :
       (list num -> num) -> list num -> list (num * num) -> OptimizeResult)
    (self : TargetOptimizer) (base_params : gmap string num) :
  guaranteed_solution fsolve np_power differential_evolution minimize self
    base_params
  = escalation
      (optimize_default fsolve np_power differential_evolution minimize self)
      base_params /\
  (forall (attempt : gmap string num -> M Solution) (last : Solution),
     (sol_co2_recovery last >=? 0.78) && (sol_co2_purity last >=? 0.78)
     = true ->
     exists s,
       relax_or_force attempt last = ret s /\
       sol_meets_target s = true /\
       physical s = physical (declared_met last) /\
       sol_optimization_penalty s = sol_optimization_penalty last) /\
  (forall (attempt : gmap string num -> M Solution) (last : Solution)
          (out : list event) (forced_run : Solution),
     (sol_co2_recovery last >=? 0.78) && (sol_co2_purity last >=? 0.78)
     = false ->
     attempt (rung_params engineered_fallback) = (out, inr forced_run) ->
     exists s,
       relax_or_force attempt last = (out, inr s) /\
       sol_meets_target s = true /\
       sol_co2_recovery s = sol_co2_recovery forced_run /\
       sol_co2_purity s = sol_co2_purity forced_run /\
       sol_full_results s = sol_full_results forced_run /\
       sol_selectivity s = Some (Fin 250) /\
       sol_co2_permeance_gpu s = Some (Fin 1500) /\
       sol_feed_composition s = Some (Fin 0.30) /\
       sol_temperature s = Some (Fin 298)) /\
  (forall factor limit v : Q,
     capped factor limit (Fin v) =n= Fin (Qmin limit (v * factor))).
Proof.
  split; [apply guaranteed_solution_climbs|].
  split; [apply relax_accepts|].
  split; [apply force_accepts|].
  apply capped_min.
Qed.

(** ** Termination of the ladder *)

Lemma optimizer_runs_app (out out' : list event) :
  optimizer_runs (out ++ out') = (optimizer_runs out + optimizer_runs out')%nat.
Proof.
  induction out as [|ev out IH]; [reflexivity|].
  destruct ev; cbn [app optimizer_runs]; rewrite IH; reflexivity.
Qed.

Lemma write_back_meets_target (r : rung) (s : Solution) :
  sol_meets_target (write_back r s) = sol_meets_target s.
Proof. reflexivity. Qed.

(** A cap applied to a non-zero selectivity is not zero. *)
Lemma capped_nonzero (factor limit : Q) (v : num) :
  (0 < factor)%Q -> (0 < limit)%Q ->
  is_zero v = false -> is_zero (capped factor limit v) = false.
Proof.
  intros Hf Hl Hv. unfold capped, py_min.
  destruct (v * factor <? limit).
  - destruct v as [q| | |]; cbn [fmul is_zero] in *.
    + apply Qeq_bool_false in Hv. apply Qeq_bool_false. intros E.
      apply Qmult_integral in E. destruct E; [contradiction | lra].
    + unfold scale_inf, Qsign.
      destruct (factor ?= 0) eqn:E; try reflexivity.
    + unfold scale_inf, Qsign.
      destruct (factor ?= 0) eqn:E; try reflexivity.
    + reflexivity.
  - cbn [is_zero]. apply Qeq_bool_false. lra.
Qed.

Section Termination.

Variable attempt : gmap string num -> M Solution.

(** Every attempt with a non-zero selectivity returns, after one optimizer
    run. *)
Hypothesis attempt_returns : forall p,
  is_zero (get p "selectivity" 50) = false ->
  exists out s, attempt p = (out, inr s) /\ optimizer_runs out = 1%nat.

Lemma relax_or_force_returns (last : Solution) :
  exists out s,
    relax_or_force attempt last = (out, inr s) /\
    sol_meets_target s = true /\ (optimizer_runs out <= 1)%nat.
Proof.
  unfold relax_or_force.
  destruct ((sol_co2_recovery last >=? 0.78) && (sol_co2_purity last >=? 0.78)).
  - exists [], (declared_met last). repeat split. cbn. lia.
  - destruct (attempt_returns (rung_params engineered_fallback) eq_refl)
      as (out & s & Hs & Hruns).
    rewrite Hs, bind_inr. cbn [fst snd ret].
    eexists _, _. split; [reflexivity|]. split; [reflexivity|].
    rewrite app_nil_r, Hruns. lia.
Qed.

(** Climbing a ladder whose rungs all have a non-zero selectivity returns a
    solution flagged as meeting the target, after at most one optimizer run
    per rung and one more. *)
Lemma climb_returns (rungs : list rung) (previous : Solution) :
  Forall (fun r => is_zero (get (rung_params r) "selectivity" 50) = false)
         rungs ->
  exists out s,
    climb attempt rungs previous (relax_or_force attempt) = (out, inr s) /\
    sol_meets_target s = true /\
    (optimizer_runs out <= length rungs + 1)%nat.
Proof.
  intros Hrungs. revert previous.
  induction Hrungs as [|r rungs Hr _ IH]; intros previous.
  - cbn [climb length]. apply relax_or_force_returns.
  - cbn [climb length].
    destruct (attempt_returns _ Hr) as (out & s & Hs & Hruns).
    rewrite Hs, bind_inr.
    destruct (sol_meets_target s) eqn:Hmeets.
    + eexists _, _. split; [reflexivity|]. split.
      * rewrite write_back_meets_target. exact Hmeets.
      * cbn [fst ret]. rewrite app_nil_r, Hruns. lia.
    + destruct (IH s) as (out' & s' & Hclimb & Hm & Hle).
      rewrite Hclimb. eexists _, _. split; [reflexivity|].
      split; [exact Hm|].
      cbn [fst]. rewrite optimizer_runs_app, Hruns. lia.
Qed.

End Termination.

(** With a root-finder that returns an iterate at every call, an attempt
    with a non-zero selectivity returns a solution after one optimizer run. *)
Lemma optimize_default_returns
    (fsolve : (num * num -> num * num) -> num * num ->
              exn + ((num * num) * (num * num)))
    (np_power : num -> num -> num)
    (differential_evolution :
       (list num -> num) -> list (num * num) -> OptimizeResult)
    (minimize :
       (list num -> num) -> list num -> list (num * num) -> OptimizeResult)
    (self : TargetOptimizer) (p : gmap string num) :
  (forall func x0, exists r, fsolve func x0 = inr r) ->
  is_zero (get p "selectivity" 50) = false ->
  exists out s,
    optimize_default fsolve np_power differential_evolution minimize self p
    = (out, inr s) /\ optimizer_runs out = 1%nat.
Proof.
  intros Hfsolve Hsel. unfold optimize_default.
  rewrite find_optimal_conditions_cases, Hsel.
  rewrite solve_single_stage_cases.
  match goal with
  | |- context [fsolve ?func ?x0] =>
      destruct (Hfsolve func x0) as ([[theta y] [fvec0 fvec1]] & ->)
  end.
  eexists _, _. split; [reflexivity|].
  cbn [optimizer_runs String.eqb].
  destruct (sq fvec0 + sq fvec1 >? 1e-6); reflexivity.
Qed.

Lemma escalation_rungs_selectivity (base_params : gmap string num) :
  is_zero (get base_params "selectivity" 50) = false ->
  Forall (fun r => is_zero (get (rung_params r) "selectivity" 50) = false)
         (escalation_rungs base_params).
Proof.
  intros Hsel. unfold escalation_rungs, get.
  repeat constructor; cbn [rung_params].
  - rewrite lookup_insert_eq. cbn [default].
    apply capped_nonzero; [lra | lra | exact Hsel].
  - rewrite lookup_insert_eq. cbn [default].
    apply capped_nonzero; [lra | lra | exact Hsel].
  - rewrite !lookup_insert_ne, lookup_insert_eq by done. reflexivity.
  - rewrite !lookup_insert_ne, lookup_insert_eq by done. reflexivity.
  - rewrite !lookup_insert_ne, lookup_insert_eq by done. reflexivity.
Qed.

(** Outside the data model, whose invariant is a selectivity above zero:
    with selectivity 0, a feed composition of 0.15 and 298 K, the first
    search is followed by the construction of the membrane model outside
    any [try], and [guaranteed_solution] raises [ZeroDivisionError],
    whatever the collaborators answer. *)
Lemma zero_selectivity_raises :
  zero_selectivity_params !! "feed_composition" = Some (Fin 0.15) /\
  zero_selectivity_params !! "temperature" = Some (Fin 298) /\
  (forall fsolve np_power differential_evolution minimize self,
     guaranteed_solution fsolve np_power differential_evolution minimize
       self zero_selectivity_params
     = ([Optimize "differential_evolution"; Construct],
        inl ZeroDivisionError)).
Proof.
  split; [reflexivity|]. split; [reflexivity|].
  intros fsolve np_power differential_evolution minimize self.
  unfold guaranteed_solution, optimize_default.
  rewrite find_optimal_conditions_cases.
  reflexivity.
Qed.

(** When the root-finder raises, [solve_single_stage] returns [None] and
    [find_optimal_conditions] raises [TypeError] on subscripting it. *)
Lemma solver_failure_raises :
  forall np_power differential_evolution minimize self e,
    guaranteed_solution (fsolve_raising e) np_power differential_evolution
      minimize self exact_root_params
    = ([Optimize "differential_evolution"; Construct;
        Print ("Error solving membrane equations: " +:+ exn_str e)],
       inl TypeError).
Proof.
  intros np_power differential_evolution minimize self e.
  unfold guaranteed_solution, optimize_default.
  rewrite find_optimal_conditions_cases.
  reflexivity.
Qed.

(** C3: for every [base_params] of the data model, whatever its feed
    composition and temperature are, [guaranteed_solution] returns a
    solution record whose [meets_target] is a defined boolean ([True], in
    fact); it does not raise, and it stops after at least one and at most
    seven optimizer runs.  The data model is what the second hypothesis
    asks for, and less: a selectivity (50 when absent) that is not zero.
    The first hypothesis is the behaviour of the root-finder on a residual
    function that returns numbers, which [equations] always does: it
    returns an iterate. *)
Theorem guaranteed_solution_returns
    (fsolve : (num * num -> num * num) -> num * num ->
              exn + ((num * num) * (num * num)))
    (np_power : num -> num -> num)
    (differential_evolution :
       (list num -> num) -> list (num * num) -> OptimizeResult)
    (minimize :
       (list num -> num) -> list num -> list (num * num) -> OptimizeResult)
    (self : TargetOptimizer) (base_params : gmap string num) :
  (forall func x0, exists r, fsolve func x0 = inr r) ->
  is_zero (get base_params "selectivity" 50) = false ->
  exists out sol,
    guaranteed_solution fsolve np_power differential_evolution minimize self
      base_params = (out, inr sol) /\
    sol_meets_target sol = true /\
    (1 <= optimizer_runs out <= 7)%nat.
Proof.
  intros Hfsolve Hsel.
  rewrite guaranteed_solution_climbs. unfold escalation.
  set (attempt := optimize_default fsolve np_power differential_evolution
                    minimize self).
  assert (Hattempt : forall p,
    is_zero (get p "selectivity" 50) = false ->
    exists out s, attempt p = (out, inr s) /\ optimizer_runs out = 1%nat).
  { intros p Hp. apply optimize_default_returns; assumption. }
  destruct (Hattempt base_params Hsel) as (out1 & s1 & Hs1 & Hruns1).
  rewrite Hs1, bind_inr.
  destruct (sol_meets_target s1) eqn:Hmeets.
  - eexists _, _. split; [reflexivity|]. split; [exact Hmeets|].
    cbn [fst ret]. rewrite app_nil_r, Hruns1. lia.
  - destruct (climb_returns attempt Hattempt (escalation_rungs base_params)
                s1 (escalation_rungs_selectivity base_params Hsel))
      as (out & s & Hclimb & Hm & Hle).
    rewrite Hclimb. eexists _, _. split; [reflexivity|].
    split; [exact Hm|].
    cbn [fst]. rewrite optimizer_runs_app, Hruns1.
    cbn [escalation_rungs length] in Hle. lia.
Qed.

Lemma guaranteed_solution_returns_witness :
  exists out sol,
    guaranteed_solution (fsolve_at (Fin 0.2, Fin 0.5)) power_stub
      (optimizer_at (Fin 3, Fin 0.2, Fin 1))
      (minimize_at (Fin 3, Fin 0.2, Fin 1))
      scenario_optimizer exact_root_params = (out, inr sol) /\
    sol_meets_target sol = true /\
    (1 <= optimizer_runs out <= 7)%nat.
Proof.
  apply (guaranteed_solution_returns (fsolve_at (Fin 0.2, Fin 0.5))
           power_stub (optimizer_at (Fin 3, Fin 0.2, Fin 1))
           (minimize_at (Fin 3, Fin 0.2, Fin 1))
           scenario_optimizer exact_root_params).
  - intros func x0. eexists. reflexivity.
  - reflexivity.
Defined.

(** ** More about the residual function *)

(** X1: outside the sentinel cases the second residual of [equations], the
    normalized mass balance, is exactly zero for every finite iterate: the
    retentate fraction is computed from that very balance.  Only the flux
    ratio constrains the root. *)
Theorem mass_balance_residual_vanishes (self : MembraneSeparation)
    (f zq t v : Q) :
  self_z self = Fin zq -> ~ (f * zq + 1e-10 == 0)%Q ->
  equations self (Fin f) (Fin t, Fin v) = (Fin 1e10, Fin 1e10) \/
  (equations self (Fin f) (Fin t, Fin v)).2 =n= 0.
Proof.
  intros Hz Hden. unfold equations, equations_divisors. rewrite Hz.
  cbn [fmul fsub fneg fadd].
  destruct (Fin (f + - (t * f)) <=? 0) eqn:HR; [left; reflexivity|].
  cbn [fle] in HR. apply Qle_bool_gt in HR.
  assert (HR0 : Qeq_bool (f + - (t * f)) 0 = false)
    by (apply Qeq_bool_false; lra).
  cbn [fdiv]. rewrite HR0.
  match goal with |- context [if ?c then ([_], sentinel) else _] =>
    destruct c end; [left; reflexivity|].
  match goal with |- context [if ?c then ([_], sentinel) else _] =>
    destruct c end; [left; reflexivity|].
  right. cbn [snd fmul fsub fneg fadd fdiv].
  assert (Hd : Qeq_bool (f * zq + 1e-10) 0 = false)
    by (apply Qeq_bool_false; exact Hden).
  rewrite Hd. cbn [num_eq].
  set (den := (f * zq + 1e-10)%Q).
  match goal with |- (?n / den == 0)%Q =>
    assert (Hn : (n == 0)%Q) by (field; lra); rewrite Hn
  end.
  unfold Qdiv. apply Qmult_0_l.
Qed.

Lemma mass_balance_residual_vanishes_witness :
  equations exact_root_model (Fin 1.0) (Fin 0.25, Fin 0.4)
    = (Fin 1e10, Fin 1e10) \/
  (equations exact_root_model (Fin 1.0) (Fin 0.25, Fin 0.4)).2 =n= 0.
Proof.
  apply (mass_balance_residual_vanishes exact_root_model 1.0 0.15 0.25 0.4).
  - reflexivity.
  - intros H. vm_compute in H. discriminate.
Defined.

(** Away from the root the first residual is not zero, so the vanishing of
    the second one above is not the sentinel case. *)
Lemma off_root_residuals_example :
  exists r1 r2,
    equations exact_root_model (Fin 1.0) (Fin 0.25, Fin 0.4) = (r1, r2) /\
    is_zero r1 = false /\ r2 =n= 0.
Proof.
  eexists _, _. split; [vm_compute; reflexivity|].
  split; vm_compute; reflexivity.
Qed.

(** X2: as long as [F * z + 1e-10] is not zero, no division [equations]
    evaluates has a zero divisor, whatever the iterate: the guards on the
    retentate flow and on the fluxes come before the divisions they protect,
    and the composition ratio divides by [1 - y] only when [y < 1]. *)
Theorem equations_never_divides_by_zero (self : MembraneSeparation)
    (F : num) (vars : num * num) :
  is_zero (F * self_z self + 1e-10) = false ->
  equations self F vars = (equations_divisors self F vars).2 /\
  Forall (fun d => is_zero d = false) (equations_divisors self F vars).1.
Proof.
  intros Hden. split; [reflexivity|].
  exact (equations_divisors_nonzero self F vars Hden).
Qed.

Lemma equations_never_divides_by_zero_witness :
  equations scenario_model 1 (Fin 0.2, Fin 0.5)
  = (equations_divisors scenario_model 1 (Fin 0.2, Fin 0.5)).2 /\
  Forall (fun d => is_zero d = false)
         (equations_divisors scenario_model 1 (Fin 0.2, Fin 0.5)).1.
Proof.
  apply (equations_never_divides_by_zero scenario_model 1 (Fin 0.2, Fin 0.5)).
  vm_compute. reflexivity.
Defined.

(** ** More about the constructor *)

(** X3: for a finite non-negative permeance and a finite selectivity of at
    least 1 the constructor returns a model whose N2 permeance is at most
    its CO2 permeance and gives the CO2 permeance back when multiplied by
    the selectivity; and a finite feed pressure is recovered from the stored
    pascals by dividing by 1e5. *)
Theorem init_permeance_order (kind : operands)
    (feed_composition permeate_pressure temperature : num)
    (fp perm sel : Q) :
  (0 <= perm)%Q -> (1 <= sel)%Q ->
  exists m,
    MembraneSeparation_init kind feed_composition (Fin fp)
      permeate_pressure temperature (Fin perm) (Fin sel)
    = ([Construct], inr m) /\
    (self_P_N2 m <=? self_P_CO2 m) = true /\
    self_P_N2 m * self_alpha m =n= self_P_CO2 m /\
    self_P_f m / 1e5 =n= Fin fp.
Proof.
  intros Hperm Hsel.
  assert (Hz : Qeq_bool sel 0 = false) by (apply Qeq_bool_false; lra).
  assert (Hinit :
    MembraneSeparation_init kind feed_composition (Fin fp)
      permeate_pressure temperature (Fin perm) (Fin sel)
    = ([Construct],
       inr (attributes feed_composition (Fin fp) permeate_pressure
              temperature (Fin perm) (Fin sel)))).
  { destruct kind; [|reflexivity].
    rewrite MembraneSeparation_init_cases. cbn [is_zero]. rewrite Hz.
    reflexivity. }
  rewrite Hinit.
  eexists. split; [reflexivity|].
  unfold attributes, GPU_TO_SI.
  cbn [self_P_N2 self_P_CO2 self_alpha self_P_f fmul fdiv fle num_eq].
  rewrite Hz.
  assert (H5 : Qeq_bool 1e5 0 = false) by reflexivity. rewrite H5.
  cbn [fle fmul num_eq]. repeat split.
  - apply Qle_bool_iff. apply Qle_shift_div_r; [lra|].
    assert (Hc : (0 <= 3.348e-10)%Q) by (apply Qle_bool_iff; reflexivity).
    assert (Hp : (0 <= perm * 3.348e-10 * (sel - 1))%Q)
      by (repeat apply Qmult_le_0_compat; solve [assumption | lra]).
    set (k := 3.348e-10%Q) in *. lra.
  - set (k := 3.348e-10%Q). field. lra.
  - assert (Hc : ~ (1e5 == 0)%Q) by (intros H; vm_compute in H; discriminate).
    set (k := 1e5%Q) in *. field. exact Hc.
Qed.

Lemma init_permeance_order_witness :
  exists m,
    MembraneSeparation_init PythonNumbers 0.15 (Fin 3) 0.2 298 (Fin 800)
      (Fin 50) = ([Construct], inr m) /\
    (self_P_N2 m <=? self_P_CO2 m) = true /\
    self_P_N2 m * self_alpha m =n= self_P_CO2 m /\
    self_P_f m / 1e5 =n= Fin 3.
Proof.
  apply (init_permeance_order PythonNumbers 0.15 0.2 298 3 800 50); lra.
Defined.

(** ** More about the penalty *)

Lemma bind_inr_inv {A B} (m : M A) (k : A -> M B) (out : list event) (b : B) :
  bind m k = (out, inr b) ->
  exists o1 a o2, m = (o1, inr a) /\ k a = (o2, inr b) /\ out = o1 ++ o2.
Proof.
  destruct m as [o1 [e|a]]; [discriminate|].
  rewrite bind_inr. destruct (k a) as [o2 r] eqn:Hk. cbn [fst snd].
  intros H. injection H as <- ->. exists o1, a, o2. auto.
Qed.

Lemma subscript_inv (results : option StageResult)
    (key : StageResult -> num) (out : list event) (v : num) :
  subscript results key = (out, inr v) ->
  exists d, results = Some d /\ v = key d.
Proof.
  destruct results as [d|]; [|discriminate].
  intros H. injection H as _ <-. exists d. auto.
Qed.

(** A shortfall term is a non-negative number or [+inf], whatever the
    target and the result are. *)
Lemma shortfall_nonneg (t r : num) :
  sq (py_max 0 (t - r)) * 100 = PInf \/
  exists q, sq (py_max 0 (t - r)) * 100 = Fin q /\ (0 <= q)%Q.
Proof.
  unfold py_max. destruct (t - r) as [x| | |]; cbn [flt].
  - destruct (Qltb 0 x); right; eexists; (split; [reflexivity|]); nra.
  - left. reflexivity.
  - right. eexists. split; [reflexivity|]. lra.
  - right. eexists. split; [reflexivity|]. lra.
Qed.

(** X4: on a candidate with finite feed pressure and area factor the
    objective is at least 0.012, whatever the solver and the targets are:
    it is never zero, never negative and never [nan]. *)
Theorem objective_function_lower_bound
    (fsolve : (num * num -> num * num) -> num * num ->
              exn + ((num * num) * (num * num)))
    (self : TargetOptimizer) (fixed_params : gmap string num)
    (fp af : Q) (pp : num) :
  (0.012 <=? (objective_function fsolve self [Fin fp; pp; Fin af]
                fixed_params).2) = true.
Proof.
  unfold objective_function.
  destruct (guards_reject fp pp af) eqn:Hg.
  { rewrite (objective_function_guards _ _ _ _ _ _ Hg). reflexivity. }
  destruct (objective_function_try fsolve self [Fin fp; pp; Fin af]
              fixed_params) as [out [e|v]] eqn:Htry; [reflexivity|].
  rewrite (objective_function_guards_pass _ _ _ _ _ _ Hg) in Htry.
  repeat (apply bind_inr_inv in Htry;
          destruct Htry as (? & ? & ? & _ & Htry & _)).
  injection Htry as _ <-. cbn [snd].
  unfold guards_reject in Hg.
  repeat match goal with
         | H : _ || _ = false |- _ =>
             apply orb_false_iff in H; destruct H
         end.
  cbn [flt] in * |-.
  assert (Hfp : (1 <= fp)%Q) by (apply Qltb_ge; assumption).
  assert (Haf : (0.1 <= af)%Q) by (apply Qltb_ge; assumption).
  match goal with
  | |- context [py_max _ (recovery_target self - ?r)] =>
      destruct (shortfall_nonneg (recovery_target self) r)
        as [E1 | (q1 & E1 & Hq1)]
  end;
  match goal with
  | |- context [py_max _ (purity_target self - ?p)] =>
      destruct (shortfall_nonneg (purity_target self) p)
        as [E2 | (q2 & E2 & Hq2)]
  end;
  rewrite E1, E2; try reflexivity.
  cbn [fadd fle]. apply Qle_bool_iff.
  assert (E3 : (fp / 10 == fp * 0.1)%Q) by field.
  assert (E4 : (af / 5 == af * 0.2)%Q) by field.
  rewrite E3, E4. lra.
Qed.

(** ** The compressor work estimate *)

(** X5: with a positive initial pressure and a finite feed pressure,
    [estimate_compressor_work] returns without raising: zero work when the
    feed pressure does not exceed the initial pressure, and otherwise the
    isothermal work with the logarithm taken of a pressure ratio above 1. *)
Theorem compressor_work_cases (np_log : num -> num)
    (self : MembraneSeparation) (feed_flow : num) (fp p0 : Q) :
  self_P_f self = Fin fp * 1e5 -> (0 < p0)%Q ->
  estimate_compressor_work np_log self feed_flow (Fin p0)
  = (if Qle_bool fp p0 then ret (Fin 0.0)
     else ret (feed_flow * 1000 * R_GAS * self_T self
               * np_log (Fin (fp * 1e5 / (p0 * 1e5))) / 1000)) /\
  (Qle_bool fp p0 = false -> (1 < fp * 1e5 / (p0 * 1e5))%Q).
Proof.
  intros HP Hp0. unfold estimate_compressor_work. rewrite HP.
  cbn [fmul fdiv]. assert (H5 : Qeq_bool 1e5 0 = false) by reflexivity.
  rewrite H5. cbn [fle].
  assert (Hk : (0 < 1e5)%Q) by reflexivity.
  set (k := 1e5%Q) in *.
  assert (Hpk : (0 < p0 * k)%Q) by (apply Qmult_lt_0_compat; assumption).
  assert (E : (fp * k / k == fp)%Q) by (field; lra).
  assert (Hguard : Qle_bool (fp * k / k) p0 = Qle_bool fp p0).
  { destruct (Qle_bool fp p0) eqn:H.
    - apply Qle_bool_iff. apply Qle_bool_iff in H. rewrite E. exact H.
    - apply Qle_bool_gt. apply Qle_bool_gt in H. rewrite E. exact H. }
  rewrite Hguard. split.
  - destruct (Qle_bool fp p0); [reflexivity|].
    unfold py_div. cbn [is_zero].
    assert (Hz : Qeq_bool (p0 * k) 0 = false)
      by (apply Qeq_bool_false; lra).
    rewrite Hz, bind_ret_l. cbn [fdiv]. rewrite Hz. reflexivity.
  - intros H. apply Qle_bool_gt in H.
    apply Qlt_shift_div_l; [exact Hpk|].
    rewrite Qmult_1_l. apply Qmult_lt_compat_r; assumption.
Qed.

Lemma compressor_work_cases_witness :
  estimate_compressor_work log_stub scenario_model 1.0 (Fin 1.0)
  = (if Qle_bool 3 1.0 then ret (Fin 0.0)
     else ret (1.0 * 1000 * R_GAS * self_T scenario_model
               * log_stub (Fin (3 * 1e5 / (1.0 * 1e5))) / 1000)) /\
  (Qle_bool 3 1.0 = false -> (1 < 3 * 1e5 / (1.0 * 1e5))%Q).
Proof.
  apply (compressor_work_cases log_stub scenario_model 1.0 3 1.0).
  - reflexivity.
  - lra.
Defined.

(** X6: with an initial pressure of zero and a positive feed pressure the
    guard does not return early and the pressure ratio divides by zero:
    [estimate_compressor_work] raises [ZeroDivisionError]. *)
Theorem compressor_work_zero_initial (np_log : num -> num)
    (self : MembraneSeparation) (feed_flow : num) (fp p0 : Q) :
  self_P_f self = Fin fp * 1e5 -> (0 < fp)%Q -> (p0 == 0)%Q ->
  estimate_compressor_work np_log self feed_flow (Fin p0)
  = raise ZeroDivisionError.
Proof.
  intros HP Hfp Hp0. unfold estimate_compressor_work. rewrite HP.
  cbn [fmul fdiv]. assert (H5 : Qeq_bool 1e5 0 = false) by reflexivity.
  rewrite H5. cbn [fle].
  assert (Hk : (0 < 1e5)%Q) by reflexivity.
  set (k := 1e5%Q) in *.
  assert (E : (fp * k / k == fp)%Q) by (field; lra).
  assert (Hguard : Qle_bool (fp * k / k) p0 = false).
  { apply Qle_bool_gt. rewrite E. lra. }
  rewrite Hguard. unfold py_div. cbn [is_zero].
  assert (Hz : Qeq_bool (p0 * k) 0 = true).
  { apply Qeq_bool_iff. rewrite Hp0. ring. }
  rewrite Hz. reflexivity.
Qed.

Lemma compressor_work_zero_initial_witness :
  estimate_compressor_work log_stub scenario_model 1.0 (Fin 0)
  = raise ZeroDivisionError.
Proof.
  apply (compressor_work_zero_initial log_stub scenario_model 1.0 3 0).
  - reflexivity.
  - lra.
  - reflexivity.
Defined.

(** ** More about the optimizer *)

(** X7: [find_optimal_conditions] does not handle a failed solve.  When the
    root-finder raises, [solve_single_stage] returns [None] and
    [find_optimal_conditions] raises [TypeError] on subscripting it, after
    the search has been run. *)
Theorem find_optimal_conditions_solver_failure
    (fsolve : (num * num -> num * num) -> num * num ->
              exn + ((num * num) * (num * num)))
    (np_power : num -> num -> num)
    (differential_evolution :
       (list num -> num) -> list (num * num) -> OptimizeResult)
    (minimize :
       (list num -> num) -> list num -> list (num * num) -> OptimizeResult)
    (self : TargetOptimizer) (base_params : gmap string num)
    (method : string) (e : exn) :
  (forall func x0, fsolve func x0 = inl e) ->
  is_zero (get base_params "selectivity" 50) = false ->
  exists out,
    find_optimal_conditions fsolve np_power differential_evolution minimize
      self base_params method = (out, inl TypeError) /\
    optimizer_runs out = 1%nat /\ constructions out = 1%nat.
Proof.
  intros Hfsolve Hsel.
  rewrite find_optimal_conditions_cases, Hsel, solve_single_stage_cases.
  rewrite Hfsolve. eexists. split; [reflexivity|].
  split; reflexivity.
Qed.

Lemma find_optimal_conditions_solver_failure_witness :
  exists out,
    find_optimal_conditions (fsolve_raising (OtherError "hybrd failed"))
      power_stub (optimizer_at (Fin 3, Fin 0.2, Fin 1))
      (minimize_at (Fin 3, Fin 0.2, Fin 1)) scenario_optimizer
      exact_root_params "minimize" = (out, inl TypeError) /\
    optimizer_runs out = 1%nat /\ constructions out = 1%nat.
Proof.
  apply (find_optimal_conditions_solver_failure
           (fsolve_raising (OtherError "hybrd failed")) power_stub
           (optimizer_at (Fin 3, Fin 0.2, Fin 1))
           (minimize_at (Fin 3, Fin 0.2, Fin 1)) scenario_optimizer
           exact_root_params "minimize" (OtherError "hybrd failed")).
  - intros func x0. reflexivity.
  - reflexivity.
Defined.

(** A record compiled by [find_optimal_conditions] has its [meets_target]
    computed from its own recovery and purity, and none of the four
    parameter keys. *)
Lemma optimize_default_genuine
    (fsolve : (num * num -> num * num) -> num * num ->
              exn + ((num * num) * (num * num)))
    (np_power : num -> num -> num)
    (differential_evolution :
       (list num -> num) -> list (num * num) -> OptimizeResult)
    (minimize :
       (list num -> num) -> list num -> list (num * num) -> OptimizeResult)
    (self : TargetOptimizer) (p : gmap string num)
    (out : list event) (s : Solution) :
  optimize_default fsolve np_power differential_evolution minimize self p
  = (out, inr s) ->
  sol_meets_target s = genuine self s /\
  sol_selectivity s = None /\ sol_co2_permeance_gpu s = None /\
  sol_feed_composition s = None /\ sol_temperature s = None.
Proof.
  unfold optimize_default. rewrite find_optimal_conditions_cases.
  destruct (is_zero (get p "selectivity" 50)); [discriminate|].
  match goal with
  | |- context [solve_single_stage ?f ?m ?F] =>
      destruct (solve_single_stage f m F) as [o [results|]]
  end; [|discriminate].
  intros H. injection H as _ <-. repeat split.
Qed.

Section Meaning.

Variable self : TargetOptimizer.
Variable attempt : gmap string num -> M Solution.

Hypothesis attempt_genuine : forall p out s,
  attempt p = (out, inr s) -> sol_meets_target s = genuine self s.

Lemma relax_or_force_meaning (last : Solution) (out : list event)
    (s : Solution) :
  relax_or_force attempt last = (out, inr s) ->
  sol_meets_target s = true /\ (relaxed s = true \/ forced s).
Proof.
  unfold relax_or_force. fold (relaxed last).
  destruct (relaxed last) eqn:Hrel.
  - intros H. injection H as _ <-. split; [reflexivity|]. left. exact Hrel.
  - intros H. apply bind_inr_inv in H.
    destruct H as (o1 & s8 & o2 & _ & H & _). injection H as _ <-.
    split; [reflexivity|]. right. repeat split.
Qed.

Lemma climb_meaning (rungs : list rung) (previous : Solution)
    (out : list event) (s : Solution) :
  climb attempt rungs previous (relax_or_force attempt) = (out, inr s) ->
  sol_meets_target s = true /\
  (genuine self s = true \/ relaxed s = true \/ forced s).
Proof.
  revert previous out.
  induction rungs as [|r rungs IH]; intros previous out; cbn [climb].
  - intros H. apply relax_or_force_meaning in H. tauto.
  - intros H. apply bind_inr_inv in H.
    destruct H as (o1 & a & o2 & Ha & H & _).
    destruct (sol_meets_target a) eqn:Hmeets.
    + injection H as _ <-. split; [exact Hmeets|]. left.
      rewrite <- Hmeets. symmetry. exact (attempt_genuine _ _ _ Ha).
    + exact (IH _ _ H).
Qed.

End Meaning.

(** X8: every record [guaranteed_solution] returns has [meets_target] set,
    and that stands for one of three things: recovery and purity reach the
    optimizer's targets; or both reach 0.78; or the record carries the
    hardcoded parameters selectivity 250, permeance 1500, feed composition
    0.30 and temperature 298 of the forced fallback. *)
Theorem guaranteed_solution_meaning
    (fsolve : (num * num -> num * num) -> num * num ->
              exn + ((num * num) * (num * num)))
    (np_power : num -> num -> num)
    (differential_evolution :
       (list num -> num) -> list (num * num) -> OptimizeResult)
    (minimize :
       (list num -> num) -> list num -> list (num * num) -> OptimizeResult)
    (self : TargetOptimizer) (base_params : gmap string num)
    (out : list event) (s : Solution) :
  guaranteed_solution fsolve np_power differential_evolution minimize self
    base_params = (out, inr s) ->
  sol_meets_target s = true /\
  (genuine self s = true \/ relaxed s = true \/ forced s).
Proof.
  rewrite guaranteed_solution_climbs. unfold escalation.
  set (attempt := optimize_default fsolve np_power differential_evolution
                    minimize self).
  assert (Hattempt : forall p o a,
    attempt p = (o, inr a) -> sol_meets_target a = genuine self a).
  { intros p o a H. apply optimize_default_genuine in H. tauto. }
  intros H. apply bind_inr_inv in H.
  destruct H as (o1 & s1 & o2 & Hs1 & H & _).
  destruct (sol_meets_target s1) eqn:Hmeets.
  - injection H as _ <-. split; [exact Hmeets|]. left.
    rewrite <- Hmeets. symmetry. exact (Hattempt _ _ _ Hs1).
  - exact (climb_meaning self attempt Hattempt _ _ _ _ H).
Qed.

Lemma guaranteed_solution_meaning_witness :
  sol_meets_target second_rung_solution = true /\
  (genuine scenario_optimizer second_rung_solution = true \/
   relaxed second_rung_solution = true \/ forced second_rung_solution).
Proof.
  apply (guaranteed_solution_meaning second_rung_fsolve power_stub
           second_rung_optimizer (minimize_at (Fin 14, Fin 0.5, Fin 1))
           scenario_optimizer second_rung_params
           [Optimize "differential_evolution"; Construct;
            Print "Warning: Solution may not have converged";
            Optimize "differential_evolution"; Construct]).
  vm_compute. reflexivity.
Defined.

(** X9: when the standard optimization misses the target and the second
    strategy meets it, [guaranteed_solution] returns the second solution as
    it is: the search was run with the selectivity raised to
    [min(100, 1.5 * selectivity)], and the record carries none of the keys
    [selectivity], [co2_permeance_gpu], [feed_composition], [temperature]
    that the later strategies write back. *)
Theorem second_strategy_discloses_nothing
    (fsolve : (num * num -> num * num) -> num * num ->
              exn + ((num * num) * (num * num)))
    (np_power : num -> num -> num)
    (differential_evolution :
       (list num -> num) -> list (num * num) -> OptimizeResult)
    (minimize :
       (list num -> num) -> list num -> list (num * num) -> OptimizeResult)
    (self : TargetOptimizer) (base_params : gmap string num)
    (o1 o2 : list event) (s1 s2 : Solution) :
  optimize_default fsolve np_power differential_evolution minimize self
    base_params = (o1, inr s1) ->
  sol_meets_target s1 = false ->
  optimize_default fsolve np_power differential_evolution minimize self
    (params2 base_params) = (o2, inr s2) ->
  sol_meets_target s2 = true ->
  guaranteed_solution fsolve np_power differential_evolution minimize self
    base_params = (o1 ++ o2, inr s2) /\
  params2 base_params !! "selectivity"
    = Some (py_min 100 (get base_params "selectivity" 50 * 1.5)) /\
  sol_selectivity s2 = None /\ sol_co2_permeance_gpu s2 = None /\
  sol_feed_composition s2 = None /\ sol_temperature s2 = None.
Proof.
  intros H1 Hm1 H2 Hm2. split.
  - unfold guaranteed_solution.
    rewrite H1, bind_inr, Hm1, H2, bind_inr, Hm2.
    cbn [fst snd ret]. rewrite app_nil_r. reflexivity.
  - split; [apply lookup_insert_eq|].
    apply optimize_default_genuine in H2. tauto.
Qed.

Lemma second_strategy_discloses_nothing_witness :
  guaranteed_solution second_rung_fsolve power_stub second_rung_optimizer
    (minimize_at (Fin 14, Fin 0.5, Fin 1)) scenario_optimizer
    second_rung_params
  = ([Optimize "differential_evolution"; Construct;
      Print "Warning: Solution may not have converged"]
     ++ [Optimize "differential_evolution"; Construct],
     inr second_rung_solution) /\
  params2 second_rung_params !! "selectivity"
    = Some (py_min 100 (get second_rung_params "selectivity" 50 * 1.5)) /\
  sol_selectivity second_rung_solution = None /\
  sol_co2_permeance_gpu second_rung_solution = None /\
  sol_feed_composition second_rung_solution = None /\
  sol_temperature second_rung_solution = None.
Proof.
  refine (second_strategy_discloses_nothing second_rung_fsolve power_stub
            second_rung_optimizer (minimize_at (Fin 14, Fin 0.5, Fin 1))
            scenario_optimizer second_rung_params _ _
            (optimal_solution power_stub scenario_optimizer
               second_rung_params
               (second_rung_optimizer
                  (fun x => (objective_function second_rung_fsolve
                               scenario_optimizer x
                               (fixed_params_of second_rung_params)).2)
                  bounds)
               (calculate_results
                  (final_membrane second_rung_params (Fin 14, Fin 0.5, Fin 1))
                  1.0 theta_init y_init))
            second_rung_solution _ _ _ _);
    vm_compute; reflexivity.
Defined.

(** ** Repeated runs *)

Lemma flt_irrefl (a : num) : (a <? a) = false.
Proof.
  destruct a as [q| | |]; cbn [flt]; try reflexivity.
  apply Qltb_ge. lra.
Qed.

Section Runs.

Variable fsolve :
  (num * num -> num * num) -> num * num -> exn + ((num * num) * (num * num)).
Variable np_power : num -> num -> num.
Variable differential_evolution :
  (list num -> num) -> list (num * num) -> OptimizeResult.
Variable minimize :
  (list num -> num) -> list num -> list (num * num) -> OptimizeResult.
Variable self : TargetOptimizer.
Variable base_params : gmap string num.

Let run := find_multiple_solutions_run fsolve np_power
             differential_evolution minimize self base_params.
Let loop := find_multiple_solutions_loop fsolve np_power
              differential_evolution minimize self base_params.

(** The state kept by the loop: a best solution meets the target and its
    penalty, below [+inf], is the best penalty. *)
Let kept (best : option Solution * num) : Prop :=
  match best.1 with
  | None => best.2 = PInf
  | Some s =>
      sol_meets_target s = true /\ best.2 = sol_optimization_penalty s /\
      (sol_optimization_penalty s <? PInf) = true
  end.

Lemma run_runs_once (i : nat) (best : option Solution * num) :
  optimizer_runs (run i best).1 = 1%nat.
Proof.
  unfold run, find_multiple_solutions_run.
  rewrite find_optimal_conditions_cases.
  destruct (is_zero (get base_params "selectivity" 50)); [reflexivity|].
  rewrite solve_single_stage_cases.
  match goal with
  | |- context [fsolve ?func ?x0] =>
      destruct (fsolve func x0) as [e | [[theta y] [fvec0 fvec1]]]
  end; [reflexivity|].
  match goal with |- context [if ?c then (_, (Some _, _)) else _] =>
    destruct c end;
  destruct (sq fvec0 + sq fvec1 >? 1e-6); reflexivity.
Qed.

Lemma run_keeps (i : nat) (best : option Solution * num) :
  kept best -> kept (run i best).2.
Proof.
  intros Hbest. unfold run, find_multiple_solutions_run.
  destruct (find_optimal_conditions fsolve np_power differential_evolution
              minimize self base_params "differential_evolution")
    as [out [e|s]]; [exact Hbest|].
  destruct (sol_meets_target s) eqn:Hm; [|exact Hbest].
  destruct (sol_optimization_penalty s <? best.2) eqn:Hlt; [|exact Hbest].
  cbn [andb snd]. unfold kept. cbn [fst snd]. repeat split; [exact Hm|].
  destruct (sol_optimization_penalty s) as [q| | |];
    destruct best.2 as [q'| | |]; cbn [flt] in *;
    try discriminate; reflexivity.
Qed.

(** A second run changes nothing: the search is seeded, so it finds the
    same solution, whose penalty is not strictly below itself. *)
Lemma run_twice (i j : nat) (best : option Solution * num) :
  (run j (run i best).2).2 = (run i best).2.
Proof.
  unfold run, find_multiple_solutions_run.
  destruct (find_optimal_conditions fsolve np_power differential_evolution
              minimize self base_params "differential_evolution")
    as [out [e|s]]; [reflexivity|].
  destruct (sol_meets_target s); [|reflexivity].
  destruct (sol_optimization_penalty s <? best.2) eqn:Hlt; cbn [andb snd].
  - rewrite flt_irrefl. reflexivity.
  - rewrite Hlt. reflexivity.
Qed.

Lemma loop_runs (runs : list nat) (best : option Solution * num) :
  optimizer_runs (loop runs best).1 = length runs.
Proof.
  revert best. induction runs as [|i runs IH]; intros best; [reflexivity|].
  unfold loop. cbn [find_multiple_solutions_loop length].
  fold run. fold loop.
  pose proof (run_runs_once i best) as H1. specialize (IH (run i best).2).
  destruct (run i best) as [out best']. cbn [fst snd] in *.
  destruct (loop runs best') as [out' final].
  cbn [fst snd] in *. rewrite optimizer_runs_app, H1, IH. reflexivity.
Qed.

Lemma loop_keeps (runs : list nat) (best : option Solution * num) :
  kept best -> kept (loop runs best).2.
Proof.
  revert best. induction runs as [|i runs IH]; intros best Hbest;
    [exact Hbest|].
  unfold loop. cbn [find_multiple_solutions_loop]. fold run. fold loop.
  pose proof (run_keeps i best Hbest) as H1.
  specialize (IH (run i best).2 H1).
  destruct (run i best) as [out best']. cbn [fst snd] in *.
  destruct (loop runs best') as [out' final]. exact IH.
Qed.

Lemma loop_cons_snd (i : nat) (runs : list nat)
    (best : option Solution * num) :
  (loop (i :: runs) best).2 = (loop runs (run i best).2).2.
Proof.
  unfold loop at 1. cbn [find_multiple_solutions_loop]. fold run. fold loop.
  destruct (run i best) as [out best']. cbn [snd].
  destruct (loop runs best') as [out' final]. reflexivity.
Qed.

Lemma loop_after_first (i : nat) (runs : list nat)
    (best : option Solution * num) :
  (loop runs (run i best).2).2 = (run i best).2.
Proof.
  induction runs as [|j runs IH]; [reflexivity|].
  rewrite loop_cons_snd, run_twice. exact IH.
Qed.

Lemma find_multiple_solutions_snd (num_runs : nat) :
  (find_multiple_solutions fsolve np_power differential_evolution minimize
     self base_params num_runs).2
  = (loop (seq 0 num_runs) (None, PInf)).2.1.
Proof.
  unfold find_multiple_solutions. fold loop.
  destruct (loop (seq 0 num_runs) (None, PInf)) as [out best]. reflexivity.
Qed.

(** X10: [find_multiple_solutions] never raises, and when it returns a
    solution, that solution meets the target and has a penalty below
    [+inf]; the optimizer was run once per requested run. *)
Theorem find_multiple_solutions_some_kept (num_runs : nat)
    (out : list event) (s : Solution) :
  find_multiple_solutions fsolve np_power differential_evolution minimize
    self base_params num_runs = (out, Some s) ->
  sol_meets_target s = true /\
  (sol_optimization_penalty s <? PInf) = true /\
  optimizer_runs out = num_runs.
Proof.
  unfold find_multiple_solutions. fold loop.
  pose proof (loop_keeps (seq 0 num_runs) (None, PInf) eq_refl) as Hk.
  pose proof (loop_runs (seq 0 num_runs) (None, PInf)) as Hr.
  destruct (loop (seq 0 num_runs) (None, PInf)) as [o best].
  cbn [fst snd] in *. intros H. injection H as -> Hs.
  unfold kept in Hk. rewrite Hs in Hk. rewrite length_seq in Hr. tauto.
Qed.

(** X11: the runs of [find_multiple_solutions] all repeat the same seeded
    search, so its answer after any number of runs is its answer after one
    run, although the optimizer is run every time. *)
Theorem find_multiple_solutions_repeats (n : nat) :
  (find_multiple_solutions fsolve np_power differential_evolution minimize
     self base_params (S n)).2
  = (find_multiple_solutions fsolve np_power differential_evolution
       minimize self base_params 1).2 /\
  optimizer_runs
    (find_multiple_solutions fsolve np_power differential_evolution
       minimize self base_params (S n)).1 = S n.
Proof.
  split.
  - rewrite !find_multiple_solutions_snd. cbn [seq].
    rewrite !loop_cons_snd, loop_after_first. reflexivity.
  - unfold find_multiple_solutions. fold loop.
    pose proof (loop_runs (seq 0 (S n)) (None, PInf)) as Hr.
    destruct (loop (seq 0 (S n)) (None, PInf)) as [o best].
    cbn [fst snd] in *. rewrite Hr, length_seq. reflexivity.
Qed.

End Runs.

Lemma find_multiple_solutions_some_kept_witness :
  sol_meets_target second_rung_solution = true /\
  (sol_optimization_penalty second_rung_solution <? PInf) = true /\
  optimizer_runs
    [Optimize "differential_evolution"; Construct;
     Optimize "differential_evolution"; Construct;
     Optimize "differential_evolution"; Construct] = 3%nat.
Proof.
  apply (find_multiple_solutions_some_kept second_rung_fsolve power_stub
           second_rung_optimizer (minimize_at (Fin 14, Fin 0.5, Fin 1))
           scenario_optimizer (params2 second_rung_params) 3).
  vm_compute. reflexivity.
Defined.

(** With no run requested, or when every run fails, the answer is [None]
    and the failures are printed. *)
Lemma find_multiple_solutions_none_examples :
  find_multiple_solutions second_rung_fsolve power_stub
    second_rung_optimizer (minimize_at (Fin 14, Fin 0.5, Fin 1))
    scenario_optimizer second_rung_params 0 = ([], None) /\
  find_multiple_solutions (fsolve_raising (OtherError "hybrd failed"))
    power_stub second_rung_optimizer (minimize_at (Fin 14, Fin 0.5, Fin 1))
    scenario_optimizer second_rung_params 1
  = ([Optimize "differential_evolution"; Construct;
      Print "Error solving membrane equations: hybrd failed";
      Print "Run 1 failed: 'NoneType' object is not subscriptable"],
     None).
Proof. split; vm_compute; reflexivity. Qed.

(** ** The convenience entry point *)

(** With a root-finder that returns an iterate at every call and a non-zero
    selectivity, the ladder returns a solution flagged as meeting the
    target after at most seven optimizer runs. *)
Lemma guaranteed_solution_returns_flagged
    (fsolve : (num * num -> num * num) -> num * num ->
              exn + ((num * num) * (num * num)))
    (np_power : num -> num -> num)
    (differential_evolution :
       (list num -> num) -> list (num * num) -> OptimizeResult)
    (minimize :
       (list num -> num) -> list num -> list (num * num) -> OptimizeResult)
    (self : TargetOptimizer) (base_params : gmap string num) :
  (forall func x0, exists r, fsolve func x0 = inr r) ->
  is_zero (get base_params "selectivity" 50) = false ->
  exists out sol,
    guaranteed_solution fsolve np_power differential_evolution minimize self
      base_params = (out, inr sol) /\
    sol_meets_target sol = true /\
    (1 <= optimizer_runs out <= 7)%nat.
Proof.
  intros Hfsolve Hsel.
  rewrite guaranteed_solution_climbs. unfold escalation.
  set (attempt := optimize_default fsolve np_power differential_evolution
                    minimize self).
  assert (Hattempt : forall p,
    is_zero (get p "selectivity" 50) = false ->
    exists out s, attempt p = (out, inr s) /\ optimizer_runs out = 1%nat).
  { intros p Hp. apply optimize_default_returns; assumption. }
  destruct (Hattempt base_params Hsel) as (out1 & s1 & Hs1 & Hruns1).
  rewrite Hs1, bind_inr.
  destruct (sol_meets_target s1) eqn:Hmeets.
  - exists (out1 ++ []), s1. split; [reflexivity|]. split; [exact Hmeets|].
    rewrite app_nil_r, Hruns1. lia.
  - destruct (climb_returns attempt Hattempt (escalation_rungs base_params)
                s1 (escalation_rungs_selectivity base_params Hsel))
      as (out & s & Hclimb & Hm & Hle).
    rewrite Hclimb. exists (out1 ++ out), s. split; [reflexivity|].
    split; [exact Hm|].
    rewrite optimizer_runs_app, Hruns1.
    cbn [escalation_rungs length] in Hle. lia.
Qed.

(** X12: [auto_optimize_for_target] fixes the selectivity to 40 or 50, so
    for every feed composition, temperature and membrane type, valid or
    not, it returns a solution flagged as meeting the target after at most
    seven optimizer runs, as long as the root-finder returns an iterate at
    every call. *)
Theorem auto_optimize_for_target_returns
    (fsolve : (num * num -> num * num) -> num * num ->
              exn + ((num * num) * (num * num)))
    (np_power : num -> num -> num)
    (differential_evolution :
       (list num -> num) -> list (num * num) -> OptimizeResult)
    (minimize :
       (list num -> num) -> list num -> list (num * num) -> OptimizeResult)
    (feed_composition temperature : num) (membrane_type : string)
    (print_results : bool) :
  (forall func x0, exists r, fsolve func x0 = inr r) ->
  exists out sol,
    auto_optimize_for_target fsolve np_power differential_evolution minimize
      feed_composition temperature membrane_type print_results
    = (out, inr sol) /\
    sol_meets_target sol = true /\
    (1 <= optimizer_runs out <= 7)%nat.
Proof.
  intros Hfsolve. unfold auto_optimize_for_target.
  destruct (String.eqb membrane_type "Polaris");
    apply guaranteed_solution_returns_flagged; try exact Hfsolve;
    reflexivity.
Qed.

Lemma auto_optimize_for_target_returns_witness :
  exists out sol,
    auto_optimize_for_target second_rung_fsolve power_stub
      second_rung_optimizer (minimize_at (Fin 14, Fin 0.5, Fin 1))
      (Fin 0.30) (Fin 298) "Advanced" false
    = (out, inr sol) /\
    sol_meets_target sol = true /\
    (1 <= optimizer_runs out <= 7)%nat.
Proof.
  apply (auto_optimize_for_target_returns second_rung_fsolve power_stub
           second_rung_optimizer (minimize_at (Fin 14, Fin 0.5, Fin 1))
           (Fin 0.30) (Fin 298) "Advanced" false).
  intros func x0. unfold second_rung_fsolve, fsolve_among.
  destruct (is_zero (func (Fin 0.3, Fin 0.8)).1 &&
            is_zero (func (Fin 0.3, Fin 0.8)).2); eexists; reflexivity.
Defined.

(** ** The rest of the OPEX calculator *)

(** ** The OPEX breakdown *)

Lemma annual_opex_breakdown_total (self : OPEXCalculator)
    (membrane_area compression_power vacuum_power
     labor_hours_per_day water_usage_m3_per_day : num) :
  total_annual (annual_opex_breakdown self membrane_area compression_power
                  vacuum_power labor_hours_per_day water_usage_m3_per_day)
  = calculate_annual_opex self membrane_area compression_power vacuum_power
      labor_hours_per_day water_usage_m3_per_day.
Proof. reflexivity. Qed.

(** X13: for non-negative finite costs, area, powers, labor hours and water
    usage, with the calculator's other constants as initialized, the annual
    total is a finite amount of at least 5100 (chemicals plus 2 %), no
    percentage divides by zero, the eight percentages add up to 100, and
    the availability-adjusted total times 0.92 gives the total back. *)
Theorem annual_opex_percentages (e m a c v h w : Q) :
  (0 <= e)%Q -> (0 <= m)%Q -> (0 <= a)%Q -> (0 <= c)%Q -> (0 <= v)%Q ->
  (0 <= h)%Q -> (0 <= w)%Q ->
  let bd :=
    annual_opex_breakdown (set_costs (Fin e) (Fin m) OPEXCalculator_init)
      (Fin a) (Fin c) (Fin v) (Fin h) (Fin w) in
  (exists T, total_annual bd = Fin T /\ (5100 <= T)%Q) /\
  energy_percentage bd + replacement_percentage bd + labor_percentage bd
    + maintenance_percentage bd + water_percentage bd
    + chemicals_percentage bd + insurance_percentage bd
    + miscellaneous_percentage bd =n= 100 /\
  total_with_availability bd * 0.92 =n= total_annual bd.
Proof.
  intros He Hm Ha Hc Hv Hh Hw bd. subst bd.
  unfold annual_opex_breakdown, set_costs, OPEXCalculator_init.
  cbn [electricity_cost membrane_cost_per_m2 membrane_lifetime
       labor_cost_per_hour maintenance_factor operating_hours_per_year
       plant_availability water_cost chemicals_cost insurance_rate
       admin_overhead total_annual total_with_availability
       energy_percentage replacement_percentage labor_percentage
       maintenance_percentage water_percentage chemicals_percentage
       insurance_percentage miscellaneous_percentage fadd fmul].
  assert (H5 : Qeq_bool 5 0 = false) by reflexivity.
  assert (H92 : Qeq_bool 0.92 0 = false) by reflexivity.
  cbn [fdiv]. rewrite H5. cbn [fadd fmul]. cbn [fdiv]. rewrite H92.
  match goal with |- context [Qeq_bool ?T 0] => set (T0 := T) end.
  assert (Hce : (0 <= c * e)%Q) by (apply Qmult_le_0_compat; assumption).
  assert (Hve : (0 <= v * e)%Q) by (apply Qmult_le_0_compat; assumption).
  assert (Ham : (0 <= a * m)%Q) by (apply Qmult_le_0_compat; assumption).
  assert (E5 : (a * m / 5 == a * m * 0.2)%Q) by field.
  assert (HT : (5100 <= T0)%Q) by (unfold T0; rewrite E5; lra).
  assert (HT0 : Qeq_bool T0 0 = false) by (apply Qeq_bool_false; lra).
  rewrite HT0. cbn [fadd fmul num_eq].
  split; [exists T0; split; [reflexivity | exact HT]|].
  split.
  - unfold T0. field. lra.
  - unfold T0. field.
Qed.

Lemma annual_opex_percentages_witness :
  let bd :=
    annual_opex_breakdown (set_costs (Fin 0.07) (Fin 50) OPEXCalculator_init)
      (Fin 40000) (Fin 3000) (Fin 500) (Fin 2) (Fin 1) in
  (exists T, total_annual bd = Fin T /\ (5100 <= T)%Q) /\
  energy_percentage bd + replacement_percentage bd + labor_percentage bd
    + maintenance_percentage bd + water_percentage bd
    + chemicals_percentage bd + insurance_percentage bd
    + miscellaneous_percentage bd =n= 100 /\
  total_with_availability bd * 0.92 =n= total_annual bd.
Proof.
  apply (annual_opex_percentages 0.07 50 40000 3000 500 2 1);
    apply Qle_bool_iff; reflexivity.
Defined.

(** X14: with a positive permeate pressure [calculate_vacuum_energy]
    returns without raising: zero power when the permeate pressure is not
    below the ambient pressure, and otherwise the isothermal work with the
    logarithm taken of a pressure ratio above 1. *)
Theorem vacuum_energy_cases (np_log : num -> num)
    (permeate_flow temperature efficiency : num) (pp pa : Q) :
  (0 < pp)%Q ->
  calculate_vacuum_energy np_log permeate_flow (Fin pp) (Fin pa)
    temperature efficiency
  = (if Qle_bool pa pp then ret (Fin 0.0)
     else ret (Fin 8.314 * temperature * (permeate_flow * 1000)
               * np_log (Fin (pa * 1e5 / (pp * 1e5))) / efficiency / 1000)) /\
  (Qle_bool pa pp = false -> (1 < pa * 1e5 / (pp * 1e5))%Q).
Proof.
  intros Hpp. unfold calculate_vacuum_energy. cbn [fle fmul].
  assert (Hk : (0 < 1e5)%Q) by reflexivity.
  set (k := 1e5%Q) in *.
  assert (Hpk : (0 < pp * k)%Q) by (apply Qmult_lt_0_compat; assumption).
  split.
  - destruct (Qle_bool pa pp); [reflexivity|].
    unfold py_div. cbn [is_zero].
    assert (Hz : Qeq_bool (pp * k) 0 = false)
      by (apply Qeq_bool_false; lra).
    rewrite Hz, bind_ret_l. cbn [fdiv]. rewrite Hz. reflexivity.
  - intros H. apply Qle_bool_gt in H.
    apply Qlt_shift_div_l; [exact Hpk|].
    rewrite Qmult_1_l. apply Qmult_lt_compat_r; assumption.
Qed.

Lemma vacuum_energy_cases_witness :
  calculate_vacuum_energy log_stub 0.01 (Fin 0.2) (Fin 1.0) 298 0.70
  = (if Qle_bool 1.0 0.2 then ret (Fin 0.0)
     else ret (Fin 8.314 * 298 * (0.01 * 1000)
               * log_stub (Fin (1.0 * 1e5 / (0.2 * 1e5))) / 0.70 / 1000)) /\
  (Qle_bool 1.0 0.2 = false -> (1 < 1.0 * 1e5 / (0.2 * 1e5))%Q).
Proof.
  apply (vacuum_energy_cases log_stub 0.01 298 0.70 0.2 1.0).
  reflexivity.
Defined.

(** X15: a permeate pressure of zero under a positive ambient pressure
    passes the guard and divides by zero in the pressure ratio:
    [calculate_vacuum_energy] raises [ZeroDivisionError]. *)
Theorem vacuum_energy_zero_permeate (np_log : num -> num)
    (permeate_flow temperature efficiency : num) (pp pa : Q) :
  (pp == 0)%Q -> (0 < pa)%Q ->
  calculate_vacuum_energy np_log permeate_flow (Fin pp) (Fin pa)
    temperature efficiency
  = raise ZeroDivisionError.
Proof.
  intros Hpp Hpa. unfold calculate_vacuum_energy. cbn [fle fmul].
  assert (Hg : Qle_bool pa pp = false) by (apply Qle_bool_gt; lra).
  rewrite Hg. unfold py_div. cbn [is_zero].
  assert (Hz : Qeq_bool (pp * 1e5) 0 = true).
  { apply Qeq_bool_iff. rewrite Hpp. apply Qmult_0_l. }
  rewrite Hz. reflexivity.
Qed.

Lemma vacuum_energy_zero_permeate_witness :
  calculate_vacuum_energy log_stub 0.01 (Fin 0) (Fin 1.0) 298 0.70
  = raise ZeroDivisionError.
Proof.
  apply (vacuum_energy_zero_permeate log_stub 0.01 298 0.70 0 1.0);
    reflexivity.
Defined.

(** X16: an amortization period of zero years makes the capital recovery
    factor divide by zero on either branch, whatever the interest rate:
    [calculate_co2_capture_cost] raises [ZeroDivisionError]. *)
Theorem capture_cost_zero_years (float_pow : num -> nat -> exn + num)
    (opex_breakdown : OpexBreakdown)
    (co2_captured_tonnes_per_year capex_total interest_rate : num) :
  calculate_co2_capture_cost float_pow opex_breakdown
    co2_captured_tonnes_per_year capex_total 0 interest_rate
  = raise ZeroDivisionError.
Proof.
  unfold calculate_co2_capture_cost. cbn [py_pow].
  destruct (0 <? interest_rate)%num; reflexivity.
Qed.

(** X17: for a finite positive annual OPEX, a non-negative CAPEX and an
    amortization period of at least one year, [calculate_co2_capture_cost]
    returns metrics whose total annual cost is finite and at least the
    OPEX, and whose OPEX and CAPEX fractions add up to 1, provided that for
    a positive interest rate the growth factor [(1 + r) ** n] comes out as
    a finite float above 1: it has neither overflowed nor been rounded down
    to 1, the two cases in which the function raises instead. *)
Theorem capture_cost_fractions (float_pow : num -> nat -> exn + num)
    (opex_breakdown : OpexBreakdown)
    (co2_captured_tonnes_per_year : num) (A C r : Q) (n : nat) :
  total_with_availability opex_breakdown = Fin A -> (0 < A)%Q ->
  (0 <= C)%Q -> (1 <= n)%nat ->
  ((0 < r)%Q ->
   exists p, float_pow (Fin (1 + r)) n = inr (Fin p) /\ (1 < p)%Q) ->
  exists m,
    calculate_co2_capture_cost float_pow opex_breakdown
      co2_captured_tonnes_per_year (Fin C) n (Fin r) = ret m /\
    (exists t, total_annual_cost m = Fin t /\ (A <= t)%Q) /\
    opex_fraction m + capex_fraction m =n= 1.
Proof.
  intros HA HposA HC Hn Hpow. unfold calculate_co2_capture_cost. rewrite HA.
  assert (Hcrf : exists f,
    (if (0 <? Fin r)%num
     then
       growth <- py_pow float_pow (1 + Fin r) n ;;
       growth' <- py_pow float_pow (1 + Fin r) n ;;
       py_div (Fin r * growth) (growth' - 1)
     else py_div 1 (Fin (inject_Z (Z.of_nat n)))) = ret (Fin f)
    /\ (0 <= f)%Q).
  { cbn [flt fadd]. unfold Qltb. destruct (Qle_bool r 0) eqn:Hr; cbn [negb].
    - assert (Hz : (0 < inject_Z (Z.of_nat n))%Q).
      { change 0%Q with (inject_Z 0). rewrite <- Zlt_Qlt. lia. }
      exists (1 / inject_Z (Z.of_nat n))%Q. unfold py_div. cbn [is_zero].
      assert (E : Qeq_bool (inject_Z (Z.of_nat n)) 0 = false)
        by (apply Qeq_bool_false; lra).
      rewrite E. cbn [fdiv]. rewrite E. split; [reflexivity|].
      apply Qle_shift_div_l; [exact Hz | lra].
    - apply Qle_bool_gt in Hr.
      destruct (Hpow Hr) as [p [E Hp]].
      destruct n as [|n']; [lia|].
      cbn [py_pow]. rewrite E. unfold lift.
      change (@nil event, @inr exn num (Fin p)) with (ret (Fin p)).
      rewrite !bind_ret_l.
      unfold fsub. cbn [fmul fadd fneg].
      unfold py_div. cbn [is_zero].
      match goal with
      | |- context [Qeq_bool ?d 0] =>
          assert (Hd : (0 < d)%Q) by lra;
          assert (E1 : Qeq_bool d 0 = false) by (apply Qeq_bool_false; lra)
      end.
      rewrite E1. cbn [fdiv]. rewrite E1. eexists. split; [reflexivity|].
      apply Qle_shift_div_l; [exact Hd|].
      assert (0 <= r * p)%Q by (apply Qmult_le_0_compat; lra). lra. }
  destruct Hcrf as [f [-> Hf]]. rewrite bind_ret_l.
  eexists. split; [reflexivity|].
  cbn [total_annual_cost opex_fraction capex_fraction fmul fadd].
  assert (HCf : (0 <= C * f)%Q) by (apply Qmult_le_0_compat; assumption).
  split; [exists (A + C * f)%Q; split; [reflexivity | lra]|].
  cbn [fdiv].
  assert (E : Qeq_bool (A + C * f) 0 = false)
    by (apply Qeq_bool_false; lra).
  rewrite E. cbn [fadd num_eq]. field. lra.
Qed.

Lemma capture_cost_fractions_witness :
  exists m,
    calculate_co2_capture_cost exact_pow scenario_breakdown 50000
      (Fin 3500000) 10 (Fin 0.05) = ret m /\
    (exists t, total_annual_cost m = Fin t /\
               (649525162500000000000000000000 # 230000000000000000000000
                <= t)%Q) /\
    opex_fraction m + capex_fraction m =n= 1.
Proof.
  apply (capture_cost_fractions exact_pow scenario_breakdown 50000
           (649525162500000000000000000000 # 230000000000000000000000)
           3500000 0.05 10).
  - vm_compute. reflexivity.
  - reflexivity.
  - apply Qle_bool_iff. reflexivity.
  - lia.
  - intros _. eexists. split; [vm_compute; reflexivity | reflexivity].
Defined.

(** The two cases the proviso excludes, on concrete float outcomes: a rate
    so small that the growth factor is rounded to exactly 1 divides by
    zero, and an overflowing power propagates its error. *)
Lemma capture_cost_rounding_examples :
  calculate_co2_capture_cost (fun _ _ => inr (Fin 1)) scenario_breakdown
    50000 (Fin 3500000) 10 (Fin 1e-17) = raise ZeroDivisionError /\
  calculate_co2_capture_cost
    (fun _ _ => inl (OtherError "OverflowError")) scenario_breakdown
    50000 (Fin 3500000) 2000 (Fin 1.0)
  = raise (OtherError "OverflowError").
Proof. split; vm_compute; reflexivity. Qed.

(** X18: with non-negative electricity and membrane prices the annual OPEX
    is finite and grows with the membrane area and with either power
    demand, the labor hours and the water use being fixed. *)
Theorem annual_opex_monotone (e m a a' c c' v v' h w : Q) :
  (0 <= e)%Q -> (0 <= m)%Q -> (a <= a')%Q -> (c <= c')%Q -> (v <= v')%Q ->
  let calc := set_costs (Fin e) (Fin m) OPEXCalculator_init in
  exists T T',
    calculate_annual_opex calc (Fin a) (Fin c) (Fin v) (Fin h) (Fin w)
      = Fin T /\
    calculate_annual_opex calc (Fin a') (Fin c') (Fin v') (Fin h) (Fin w)
      = Fin T' /\
    (T <= T')%Q.
Proof.
  intros He Hm Ha Hc Hv calc. subst calc.
  unfold calculate_annual_opex, set_costs, OPEXCalculator_init.
  cbn [electricity_cost membrane_cost_per_m2 membrane_lifetime
       labor_cost_per_hour maintenance_factor operating_hours_per_year
       plant_availability water_cost chemicals_cost insurance_rate
       admin_overhead fadd fmul].
  assert (H5 : Qeq_bool 5 0 = false) by reflexivity.
  cbn [fdiv]. rewrite H5. cbn [fadd fmul].
  eexists _, _. split; [reflexivity|]. split; [reflexivity|].
  assert (Hce : (0 <= (c' - c) * e)%Q) by (apply Qmult_le_0_compat; lra).
  assert (Hve : (0 <= (v' - v) * e)%Q) by (apply Qmult_le_0_compat; lra).
  assert (Ham : (0 <= (a' - a) * m)%Q) by (apply Qmult_le_0_compat; lra).
  assert (E5 : (a * m / 5 == a * m * 0.2)%Q) by field.
  assert (E5' : (a' * m / 5 == a' * m * 0.2)%Q) by field.
  rewrite E5, E5'. lra.
Qed.

Lemma annual_opex_monotone_witness :
  let calc := set_costs (Fin 0.07) (Fin 50) OPEXCalculator_init in
  exists T T',
    calculate_annual_opex calc (Fin 40000) (Fin 3000) (Fin 500) (Fin 2)
      (Fin 1) = Fin T /\
    calculate_annual_opex calc (Fin 50000) (Fin 3000) (Fin 600) (Fin 2)
      (Fin 1) = Fin T' /\
    (T <= T')%Q.
Proof.
  apply (annual_opex_monotone 0.07 50 40000 50000 3000 3000 500 600 2 1);
    apply Qle_bool_iff; reflexivity.
Defined.
